(** * Dashboard orchestration layer of the fintech intelligence pipeline

    A shallow embedding of the client-side code of the dashboard:
    - [DatabaseService], the service that calls the deployed API (the
      second part of src/dashboard/src/App.js): four fetch wrappers that
      fall back to fixed data;
    - [App] (src/dashboard/src/App.js): the refresh cycle and what is
      rendered;
    - [RecommendationsTable] (the second part of
      src/dashboard/src/components/StockOverview.js): filter, sort, sort
      toggling, risk badge and accuracy colouring;
    - [AIAnalysis] (the second part of src/unnamed/part_000): risk label,
      colour and gauge.

    JavaScript values are modelled by [Js.value]; numbers are binary64
    floats (primitive floats), strings are byte strings.  The parts of the
    JavaScript runtime the code calls ([fetch], [Promise.all],
    [Object.entries], [Array.prototype.sort], [new Date(string)],
    [toLowerCase]) are modelled in [Js], [Effects] and [Runtime]; each
    model says what it covers. *)

From Stdlib Require Import ZArith List String Ascii Bool Lia.
From Stdlib Require Import Floats Uint63 DecimalString.
From Stdlib Require Import Permutation Sorted.
Import ListNotations.

Set Warnings "-inexact-float,-register-all,-notation-for-abbreviation".

Local Open Scope string_scope.
Local Open Scope Z_scope.

(* ================================================================== *)
(** ** JavaScript values, errors and promises *)

Module Js.

(** A JavaScript value as [JSON.parse] and object literals build it. *)
Inductive value : Type :=
| Undefined
| Null
| Bool (b : bool)
| Num (x : float)
| Str (s : string)
| Arr (items : list value)
| Obj (fields : list (string * value)).

(** A thrown value: an [Error] with its [name] and [message]. *)
Record error : Type := mkError { name : string; message : string }.

Definition TypeError (msg : string) : error := mkError "TypeError" msg.
Definition Error (msg : string) : error := mkError "Error" msg.

(** The state a promise settles in. *)
Inductive settled (A : Type) : Type :=
| Fulfilled (v : A)
| Rejected (e : error).
Arguments Fulfilled {A} v.
Arguments Rejected {A} e.

(** [ToBoolean]: [undefined], [null], [false], [0], [-0], [NaN] and the
    empty string are falsy, everything else is truthy. *)
Definition truthy (v : value) : bool :=
  match v with
  | Undefined | Null => false
  | Bool b => b
  | Num x => negb (PrimFloat.is_zero x || PrimFloat.is_nan x)
  | Str s => negb (String.eqb s "")
  | Arr _ | Obj _ => true
  end.

(** [a || b] *)
Definition or (a b : value) : value := if truthy a then a else b.

Fixpoint lookup (k : string) (fields : list (string * value)) : value :=
  match fields with
  | [] => Undefined
  | (k', v) :: rest => if String.eqb k k' then v else lookup k rest
  end.

Definition of_nat (n : nat) : value :=
  Num (PrimFloat.of_uint63 (Uint63.of_Z (Z.of_nat n))).

(** [v.k] for a key [k] that is not an array index: a [TypeError] on
    [null] and [undefined], the own property of an object, [length] of an
    array or a string, [undefined] otherwise. *)
Definition get (v : value) (k : string) : error + value :=
  match v with
  | Undefined =>
      inl (TypeError ("Cannot read properties of undefined (reading '" ++ k ++ "')"))
  | Null =>
      inl (TypeError ("Cannot read properties of null (reading '" ++ k ++ "')"))
  | Obj fields => inr (lookup k fields)
  | Arr items => inr (if String.eqb k "length" then of_nat (List.length items) else Undefined)
  | Str s => inr (if String.eqb k "length" then of_nat (String.length s) else Undefined)
  | Bool _ | Num _ => inr Undefined
  end.

(** [Promise.all]: fulfilled with all the values when every promise is
    fulfilled, rejected with the reason of a rejected one otherwise (the
    first in the list stands for the first in time). *)
Fixpoint Promise_all {A : Type} (ps : list (settled A)) : settled (list A) :=
  match ps with
  | [] => Fulfilled []
  | Rejected e :: _ => Rejected e
  | Fulfilled v :: rest =>
      match Promise_all rest with
      | Fulfilled vs => Fulfilled (v :: vs)
      | Rejected e => Rejected e
      end
  end.

(** Decimal rendering of an integer, as a template literal prints it. *)
Definition show_Z (z : Z) : string := NilZero.string_of_int (Z.to_int z).

(** [v.k] for a [v] that is neither [null] nor [undefined], where the read
    cannot throw. *)
Definition read (v : value) (k : string) : value :=
  match get v k with
  | inr x => x
  | inl _ => Undefined
  end.

(** [v?.k] *)
Definition optional_get (v : value) (k : string) : value :=
  match v with
  | Undefined | Null => Undefined
  | _ => read v k
  end.

(** [typeof v === 'object'] *)
Definition typeof_object (v : value) : bool :=
  match v with
  | Null | Arr _ | Obj _ => true
  | _ => false
  end.

(** [Array.isArray(v)] *)
Definition isArray (v : value) : bool :=
  match v with
  | Arr _ => true
  | _ => false
  end.

(** [v.length === 0] for an array [v]. *)
Definition length_is_0 (v : value) : bool :=
  match v with
  | Arr [] => true
  | _ => false
  end.












(** [Number(v)].  The reading of a string as a number and the joining of an
    array into a string are the runtime's and are taken as given. *)
Section Conversion.
Variable StringToNumber : string -> float.
Variable ArrayToString : list value -> string.

Definition Number (v : value) : float :=
  match v with
  | Undefined => PrimFloat.nan
  | Null => 0%float
  | Bool b => if b then 1%float else 0%float
  | Num x => x
  | Str s => StringToNumber s
  | Arr items => StringToNumber (ArrayToString items)
  | Obj _ => StringToNumber "[object Object]"
  end.


End Conversion.

End Js.

(* ================================================================== *)
(** ** The network and the effects of an async function *)

Module Effects.
Import Js.

(** What [await fetch(url)] gives back: a response, whose body
    [await response.json()] parses or fails to parse, or a rejection when
    no response arrives. *)
Record response : Type := mkResponse {
  status : Z;
  statusText : string;
  json : error + value
}.

(** [response.ok]: the status is in the range 200-299. *)
Definition ok (r : response) : bool := (200 <=? status r) && (status r <=? 299).

Inductive outcome : Type :=
| NoResponse (e : error)
| Responded (r : response).

(** The network during one call: what each URL answers. *)
Definition network : Type := string -> outcome.

(** What a caller can observe of an async function besides its result. *)
Inductive event : Type :=
| Get (url : string)
| ConsoleLog
| ConsoleError.

(** An async function body run to completion against a network: the events
    it produced and either the value returned or the value thrown. *)
Definition async (A : Type) : Type := network -> list event * (error + A).

Definition ret {A} (a : A) : async A := fun _ => ([], inr a).
Definition throw {A} (e : error) : async A := fun _ => ([], inl e).

Definition bind {A B} (m : async A) (k : A -> async B) : async B :=
  fun net =>
    match m net with
    | (t, inl e) => (t, inl e)
    | (t, inr a) => let (t', r) := k a net in ((t ++ t')%list, r)
    end.

(** [try { m } catch (error) { h error }] *)
Definition try_catch {A} (m : async A) (h : error -> async A) : async A :=
  fun net =>
    match m net with
    | (t, inl e) => let (t', r) := h e net in ((t ++ t')%list, r)
    | (t, inr a) => (t, inr a)
    end.

Definition lift {A} (r : error + A) : async A := fun _ => ([], r).

Definition fetch (url : string) : async response :=
  fun net =>
    ([Get url],
     match net url with
     | NoResponse e => inl e
     | Responded r => inr r
     end).

Definition console_log : async unit := fun _ => ([ConsoleLog], inr tt).
Definition console_error : async unit := fun _ => ([ConsoleError], inr tt).

(** The promise an async function returns. *)
Definition promise {A} (m : async A) (net : network) : settled A :=
  match snd (m net) with
  | inr v => Fulfilled v
  | inl e => Rejected e
  end.

(** The requests an async function issued. *)
Fixpoint requests (t : list event) : list string :=
  match t with
  | [] => []
  | Get url :: rest => url :: requests rest
  | _ :: rest => requests rest
  end.

Definition trace {A} (m : async A) (net : network) : list event := fst (m net).

(** A call of an async function runs at once up to its first [await] and
    goes on when what it awaits is there.  In the functions modelled here
    the first [await] is the one of [fetch]: what a call does at once are
    its events up to and including the request, and the rest is what it
    does once the response has come (or failed to).  The second [await],
    of [response.json()], has no event before it, so the events after the
    request all belong to one uninterrupted run of the call. *)
Fixpoint until_request (t : list event) : list event :=
  match t with
  | [] => []
  | Get url :: _ => [Get url]
  | e :: rest => e :: until_request rest
  end.

Fixpoint after_request (t : list event) : list event :=
  match t with
  | [] => []
  | Get _ :: rest => rest
  | _ :: rest => after_request rest
  end.

End Effects.

Declare Scope async_scope.
Delimit Scope async_scope with async.
Notation "x <- m ;; k" := (Effects.bind m (fun x => k))
(at level 61, m at next level, right associativity) : async_scope.
Notation "m ;; k" := (Effects.bind m (fun _ => k))
(at level 61, right associativity) : async_scope.

(* ================================================================== *)
(** ** DatabaseService: the four gateway operations *)

Module DatabaseService.
Import Js Effects.
Local Open Scope async_scope.

Definition API_BASE_URL : string :=
  "https://fintech-intelligence-pipeline-production.up.railway.app".

Definition N (x : float) : value := Num x.

(** [getFallbackLatestData()] *)
Definition getFallbackLatestData : value :=
  Obj [ ("id", N 1);
        ("date", Str "2025-09-12");
        ("symbol", Str "AAPL");
        ("stockData",
          Obj [ ("open", N 229.22); ("close", N 234.07); ("high", N 234.51);
                ("low", N 229.02); ("volume", N 55824216); ("vwap", N 231.5);
                ("transactions", N 850000); ("change", N 4.85);
                ("changePercent", N 2.12) ]);
        ("aiAnalysis",
          Obj [ ("sentiment", Str "bullish"); ("riskScore", N 6);
                ("pricePrediction", N 235.0);
                ("recommendations",
                  Arr [ Str "Buy AAPL due to strong quarterly earnings";
                        Str "AAPL is a good long-term investment opportunity";
                        Str "The recent price increase is a buying signal" ]);
                ("analysis", Str "AAPL shows strong momentum, expect continued growth");
                ("model", Str "meta-llama/llama-3.2-3b-instruct:free") ]) ].

(** [getFallbackHistoricalData()] *)
Definition getFallbackHistoricalData : value :=
  Arr [ Obj [ ("date", Str "2025-09-10"); ("open", N 232.185); ("close", N 226.79);
              ("high", N 232.42); ("low", N 225.95); ("volume", N 83440810);
              ("vwap", N 229.6) ];
        Obj [ ("date", Str "2025-09-11"); ("open", N 226.875); ("close", N 230.03);
              ("high", N 230.45); ("low", N 226.65); ("volume", N 50208578);
              ("vwap", N 228.5) ];
        Obj [ ("date", Str "2025-09-12"); ("open", N 229.22); ("close", N 234.07);
              ("high", N 234.51); ("low", N 229.02); ("volume", N 55824216);
              ("vwap", N 231.5) ] ].

(** [getFallbackRecommendations()] *)
Definition getFallbackRecommendations : value :=
  Arr [ Obj [ ("date", Str "2025-09-12"); ("symbol", Str "AAPL");
              ("sentiment", Str "bullish"); ("riskScore", N 6);
              ("pricePrediction", N 235.0); ("actualPrice", N 234.07);
              ("recommendations",
                Arr [ Str "Buy AAPL due to strong quarterly earnings";
                      Str "Good long-term investment" ]);
              ("changePercent", N 2.12); ("predictionAccuracy", N 99.6) ] ].

(** [getFallbackMetrics()] *)
Definition getFallbackMetrics : value :=
  Obj [ ("totalDaysAnalyzed", N 7);
        ("totalRecommendations", N 7);
        ("sentimentDistribution", Obj [ ("bullish", N 4); ("bearish", N 3) ]);
        ("averageRiskScore", N 6.43);
        ("priceMetrics",
          Obj [ ("minPrice", N 226.79); ("maxPrice", N 234.07);
                ("avgPrice", N 230.3); ("avgVolume", N 63157868) ]) ].

(** [if (!response.ok) throw new Error(`HTTP ${status}: ${statusText}`)] *)
Definition check_ok (r : response) : async unit :=
  if negb (ok r)
  then throw (Error ("HTTP " ++ show_Z (status r) ++ ": " ++ statusText r))
  else ret tt.

Definition latest_url : string := API_BASE_URL ++ "/api/latest".
Definition historical_url : string := API_BASE_URL ++ "/api/historical".
Definition recommendations_url : string := API_BASE_URL ++ "/api/recommendations".
Definition metrics_url : string := API_BASE_URL ++ "/api/metrics".

(** [async getLatestStockData()] *)
Definition getLatestStockData : async value :=
  try_catch
    (console_log ;;
     response <- fetch latest_url ;;
     check_ok response ;;
     data <- lift (json response) ;;
     console_log ;;
     id <- lift (get data "id") ;;
     date <- lift (get data "date") ;;
     symbol <- lift (get data "symbol") ;;
     stockData <- lift (get data "stockData") ;;
     aiAnalysis <- lift (get data "aiAnalysis") ;;
     ret (Obj [ ("id", or id (N 1)); ("date", date); ("symbol", symbol);
                ("stockData", stockData); ("aiAnalysis", aiAnalysis) ]))
    (fun error => console_error ;; ret getFallbackLatestData).

(** [async getHistoricalData(days = 30)]: the parameter takes its default
    when the argument is [undefined]; the body never reads it. *)
Definition getHistoricalData (days_arg : value) : async value :=
  let days := match days_arg with Undefined => N 30 | d => d end in
  try_catch
    (console_log ;;
     response <- fetch historical_url ;;
     check_ok response ;;
     data <- lift (json response) ;;
     len <- lift (get data "length") ;;
     console_log ;;
     ret data)
    (fun error => console_error ;; ret getFallbackHistoricalData).

(** [async getAllRecommendations()] *)
Definition getAllRecommendations : async value :=
  try_catch
    (console_log ;;
     response <- fetch recommendations_url ;;
     check_ok response ;;
     data <- lift (json response) ;;
     len <- lift (get data "length") ;;
     console_log ;;
     ret data)
    (fun error => console_error ;; ret getFallbackRecommendations).

(** [async getPerformanceMetrics()] *)
Definition getPerformanceMetrics : async value :=
  try_catch
    (console_log ;;
     response <- fetch metrics_url ;;
     check_ok response ;;
     data <- lift (json response) ;;
     console_log ;;
     ret data)
    (fun error => console_error ;; ret getFallbackMetrics).

(** The three failures of a request: no response, a status outside 200-299,
    a body that does not parse. *)
Inductive failure : Type := TransportFailure | StatusFailure | ParseFailure.

Definition failure_of (o : outcome) : option failure :=
  match o with
  | NoResponse _ => Some TransportFailure
  | Responded r =>
      if negb (ok r) then Some StatusFailure
      else match json r with
           | inl _ => Some ParseFailure
           | inr _ => None
           end
  end.

End DatabaseService.

(* ================================================================== *)
(** ** App: the refresh cycle and what is rendered *)

Module App.
Import Js Effects.

(** The six [useState] cells of [App]. [lastUpdated] holds the time of
    [new Date()] in milliseconds, [error] is [null] or a message. *)
Record state : Type := mkState {
  latestData : value;
  recommendations : value;
  metrics : value;
  loading : bool;
  error : value;
  lastUpdated : option Z
}.

(** The state [App] is mounted with. *)
Definition initial : state :=
  {| latestData := Null; recommendations := Arr []; metrics := Null;
     loading := true; error := Null; lastUpdated := None |}.

Definition setLatestData (v : value) (s : state) : state :=
  mkState v (recommendations s) (metrics s) (loading s) (error s) (lastUpdated s).
Definition setRecommendations (v : value) (s : state) : state :=
  mkState (latestData s) v (metrics s) (loading s) (error s) (lastUpdated s).
Definition setMetrics (v : value) (s : state) : state :=
  mkState (latestData s) (recommendations s) v (loading s) (error s) (lastUpdated s).
Definition setLoading (b : bool) (s : state) : state :=
  mkState (latestData s) (recommendations s) (metrics s) b (error s) (lastUpdated s).
Definition setError (v : value) (s : state) : state :=
  mkState (latestData s) (recommendations s) (metrics s) (loading s) v (lastUpdated s).
Definition setLastUpdated (t : Z) (s : state) : state :=
  mkState (latestData s) (recommendations s) (metrics s) (loading s) (error s) (Some t).

(** The operations [fetchDashboardData] passes to [Promise.all], in order. *)
Definition gateway_calls : list (async value) :=
  [ DatabaseService.getLatestStockData;
    DatabaseService.getAllRecommendations;
    DatabaseService.getPerformanceMetrics ].

(** [const [latest, recs, performanceMetrics] = ...]: a missing position
    destructures to [undefined]. *)
Definition item (i : nat) (vs : list value) : value := nth i vs Undefined.

(** The state while a cycle is in flight: [setLoading(true); setError(null)]. *)
Definition in_flight (s : state) : state := setError Null (setLoading true s).

(** What the calls in the array given to [Promise.all] do at once, one
    call after the other: each runs up to its request. *)
Definition started (net : network) : list event :=
  flat_map (fun op => until_request (trace op net)) gateway_calls.

(** What happens from then on, when the calls finish in the order
    [finishing]: each call goes on once its response is there.
    [Promise.all] is fulfilled when the last call is, and the success is
    logged then; it is rejected as soon as a call is rejected, and the
    [catch] block logs the error then. *)
Fixpoint settling (finishing : list (async value)) (net : network) : list event :=
  match finishing with
  | [] => [ConsoleLog]
  | op :: rest =>
      (after_request (trace op net)
       ++ match promise op net with
          | Fulfilled _ => settling rest net
          | Rejected _ =>
              ConsoleError :: flat_map (fun op' => after_request (trace op' net)) rest
          end)%list
  end.

(** The state once the [finally] block has run: [Promise.all] is rejected
    with the reason of the first call to be rejected, and fulfilled with
    the values in the order of the calls otherwise. *)
Definition settled_state (finishing : list (async value))
    (now : Z) (net : network) (s : state) : state :=
  let s1 := in_flight s in
  let s2 :=
    match Promise_all (map (fun op => promise op net) finishing),
          Promise_all (map (fun op => promise op net) gateway_calls) with
    | Fulfilled _, Fulfilled vs =>
        setLastUpdated now
          (setMetrics (item 2 vs)
            (setRecommendations (item 1 vs)
              (setLatestData (item 0 vs) s1)))
    | Rejected err, _ | Fulfilled _, Rejected err =>
        setError (Str ("Failed to load data: " ++ message err)) s1
    end in
  setLoading false s2.

(** [fetchDashboardData()], run against [net] and over at time [now], with
    the calls finishing in the order [finishing] (the three calls, in the
    order their responses come): the events of the cycle and the state it
    ends in.  The three calls are all started, each up to its request,
    before any of them goes on. *)
Definition fetchDashboardData_finishing (finishing : list (async value))
    (now : Z) (net : network) (s : state) : list event * state :=
  ((ConsoleLog :: started net) ++ settling finishing net,
   settled_state finishing now net s)%list.

(** [fetchDashboardData()] when the calls finish in the order they were
    made in. *)
Definition fetchDashboardData (now : Z) (net : network) (s : state)
  : list event * state :=
  fetchDashboardData_finishing gateway_calls now net s.

(** What starts a cycle: the effect run on mount, the interval timer, the
    Refresh (or Retry) button. *)
Inductive trigger : Type := InitialLoad | IntervalTick | RefreshClick.

(** [setInterval(fetchDashboardData, 5 * 60 * 1000)]: the period in
    milliseconds. *)
Definition refresh_interval : Z := 5 * 60 * 1000.

(** Every trigger calls [fetchDashboardData]. *)
Definition on_trigger (t : trigger) (now : Z) (net : network) (s : state)
  : list event * state :=
  match t with
  | InitialLoad => fetchDashboardData now net s
  | IntervalTick => fetchDashboardData now net s
  | RefreshClick => fetchDashboardData now net s
  end.

(** A cycle started by a trigger, with its calls finishing in a given
    order. *)
Definition on_trigger_finishing (t : trigger) (finishing : list (async value))
    (now : Z) (net : network) (s : state) : list event * state :=
  match t with
  | InitialLoad => fetchDashboardData_finishing finishing now net s
  | IntervalTick => fetchDashboardData_finishing finishing now net s
  | RefreshClick => fetchDashboardData_finishing finishing now net s
  end.

(** The three return statements of [App]. *)
Inductive view : Type :=
| LoadingSpinner
| ConnectionError
| Dashboard (banner : bool).

(** What [App] renders in a state. *)
Definition render (s : state) : view :=
  if loading s && negb (truthy (latestData s)) then LoadingSpinner
  else if truthy (error s) && negb (truthy (latestData s)) then ConnectionError
  else Dashboard (truthy (error s) && truthy (latestData s)).

(** The presentation states: the spinner is [Loading], the blocking retry
    screen is [HardError], the dashboard with the refresh-failed banner is
    [Degraded], the dashboard without it is [Ready]. *)
Inductive presentation : Type := Loading | Ready | Degraded | HardError.

Definition presentation_of (s : state) : presentation :=
  match render s with
  | LoadingSpinner => Loading
  | ConnectionError => HardError
  | Dashboard true => Degraded
  | Dashboard false => Ready
  end.

(** A cycle: what started it, the time it ended at, the network it met. *)
Definition cycle : Type := (trigger * Z * network)%type.

(** The cycles of a session, one after the other. *)
Fixpoint run (cycles : list cycle) (s : state) : state :=
  match cycles with
  | [] => s
  | (t, now, net) :: rest => run rest (snd (on_trigger t now net s))
  end.

(** [{latestData && <StockOverview ... />}] *)
Definition shows_overview (s : state) : bool := truthy (latestData s).

(** [{metrics && <PerformanceMetrics ... />}] *)
Definition shows_metrics (s : state) : bool := truthy (metrics s).

(** [Total Records: {metrics?.totalDaysAnalyzed || 0}] *)
Definition total_records (s : state) : value :=
  or (optional_get (metrics s) "totalDaysAnalyzed") (Num 0).

(** [{latestData ? 'Online' : 'Offline'}] *)
Definition system_status (s : state) : string :=
  if truthy (latestData s) then "Online" else "Offline".

End App.

(* ================================================================== *)
(** ** The runtime: strings, dates and [Array.prototype.sort] *)

Module Runtime.

(** *** Strings *)

(** A string of ASCII characters only (code units below 128).  The case
    conversions below are JavaScript's on these strings; on the others
    JavaScript follows the Unicode case mappings, which are not modelled. *)
Fixpoint ascii_only (s : string) : bool :=
  match s with
  | EmptyString => true
  | String c rest => (nat_of_ascii c <? 128)%nat && ascii_only rest
  end.

Definition lower (c : ascii) : ascii :=
  let n := nat_of_ascii c in
  if (65 <=? n)%nat && (n <=? 90)%nat then ascii_of_nat (n + 32) else c.

(** [s.toLowerCase()] for a string [s] of ASCII characters: the letters A
    to Z are replaced, all else is kept. *)
Fixpoint toLowerCase (s : string) : string :=
  match s with
  | EmptyString => EmptyString
  | String c rest => String (lower c) (toLowerCase rest)
  end.

(** [a < b] on two strings: the order of their code units. *)
Definition str_lt (a b : string) : bool := String.ltb a b.



(** *** Dates *)

Definition is_digit (c : ascii) : bool :=
  let n := nat_of_ascii c in (48 <=? n)%nat && (n <=? 57)%nat.

Fixpoint all_digits (s : string) : bool :=
  match s with
  | EmptyString => true
  | String c rest => is_digit c && all_digits rest
  end.

Fixpoint number_from (acc : Z) (s : string) : Z :=
  match s with
  | EmptyString => acc
  | String c rest => number_from (10 * acc + (Z.of_nat (nat_of_ascii c) - 48)) rest
  end.

Fixpoint split_from (sep : ascii) (cur : string) (s : string) : list string :=
  match s with
  | EmptyString => [cur]
  | String c rest =>
      if Ascii.eqb c sep then cur :: split_from sep EmptyString rest
      else split_from sep (cur ++ String c EmptyString) rest
  end.

(** [s.split("-")] *)
Definition split_dash (s : string) : list string := split_from "-"%char EmptyString s.

Definition InLeapYear (y : Z) : bool :=
  ((y mod 4 =? 0) && negb (y mod 100 =? 0)) || (y mod 400 =? 0).

(** [DayFromYear(y)] of the language definition. *)
Definition DayFromYear (y : Z) : Z :=
  365 * (y - 1970) + (y - 1969) / 4 - (y - 1901) / 100 + (y - 1601) / 400.

(** Days of the year before month [m] (1 to 12). *)
Definition days_before_month (leap : bool) (m : Z) : Z :=
  let l := if leap then 1 else 0 in
  match m with
  | 1 => 0 | 2 => 31 | 3 => 59 + l | 4 => 90 + l | 5 => 120 + l | 6 => 151 + l
  | 7 => 181 + l | 8 => 212 + l | 9 => 243 + l | 10 => 273 + l | 11 => 304 + l
  | _ => 334 + l
  end.

(** [MakeDay(y, m - 1, d)] for a month in 1..12. *)
Definition MakeDay (y m d : Z) : Z :=
  DayFromYear y + days_before_month (InLeapYear y) m + d - 1.

Definition msPerDay : Z := 86400000.
Definition msPerMinute : Z := 60000.

Definition IsMonth (x : Z) : bool := (1 <=? x) && (x <=? 12).
Definition IsDay (x : Z) : bool := (1 <=? x) && (x <=? 31).

(** A group of one to four digits. *)
Definition digit_group (g : string) : bool :=
  all_digits g && (1 <=? String.length g)%nat && (String.length g <=? 4)%nat.

(** The date a string made of three digit groups separated by [-] stands
    for in V8: its day number, and whether the string is in the date-time
    string format of the language ([YYYY-MM-DD] with a month and a day in
    range).  A string that is not in that format goes to V8's own parser,
    which takes the three numbers as year, month, day when the first
    cannot be a day and as month, day, year otherwise, and moves a year of
    0 to 49 to 2000-2049 and one of 50 to 99 to 1950-1999. *)
Definition Date_fields (s : string) : option (Z * bool) :=
  match split_dash s with
  | [s0; s1; s2] =>
      let n0 := number_from 0 s0 in
      let n1 := number_from 0 s1 in
      let n2 := number_from 0 s2 in
      if digit_group s0 && digit_group s1 && digit_group s2 then
        if (String.length s0 =? 4)%nat
           && (String.length s1 =? 2)%nat && IsMonth n1
           && (String.length s2 =? 2)%nat && IsDay n2
        then Some (MakeDay n0 n1 n2, true)
        else
          let year := if IsDay n0 then n2 else n0 in
          let month := if IsDay n0 then n0 else n1 in
          let day := if IsDay n0 then n1 else n2 in
          let year' :=
            if (0 <=? year) && (year <=? 49) then year + 2000
            else if (50 <=? year) && (year <=? 99) then year + 1900
            else year in
          if IsMonth month && IsDay day
          then Some (MakeDay year' month day, false)
          else None
      else None
  | _ => None
  end.

(** The time value of [new Date(s)] in V8 for a string [s] of three digit
    groups.  In the date-time string format it is midnight UTC of the date;
    otherwise it is midnight local time of the date, where [offset t] is
    the number of minutes local time is behind UTC at the local time [t]
    (what [getTimezoneOffset()] reports there).  On these strings [None] is
    the time value [NaN].  Strings of any other shape (date-times, month
    names, other separators) are not read by this model, which gives them
    [None] too: there [None] says nothing of V8. *)
Definition Date_parse (offset : Z -> Z) (s : string) : option Z :=
  match Date_fields s with
  | Some (day, iso) =>
      let t := day * msPerDay in
      Some (if iso then t else t + offset t * msPerMinute)
  | None => None
  end.

(** [a > b] and [a < b] on two [Date] objects: their time values are
    compared as numbers, and every comparison with [NaN] is false. *)
Definition time_lt (a b : option Z) : bool :=
  match a, b with
  | Some x, Some y => x <? y
  | _, _ => false
  end.

(** *** Sorting *)

Section ArraySort.
Context {A : Type}.
Variable comparefn : A -> A -> Z.

(** The loop of [CountAndMakeRun]: how many more elements extend the run
    that ends in [previous]. *)
Fixpoint run_extends (isDescending : bool) (previous : A) (rest : list A) : nat :=
  match rest with
  | [] => 0%nat
  | current :: rest' =>
      let order := comparefn current previous in
      if isDescending
      then (if order <? 0 then S (run_extends isDescending current rest') else 0%nat)
      else (if order <? 0 then 0%nat else S (run_extends isDescending current rest'))
  end.

(** [CountAndMakeRun(0, length)]: the length of the run the array starts
    with, and the array with that run reversed when it is descending. *)
Definition CountAndMakeRun (a : list A) : nat * list A :=
  match a with
  | [] => (0%nat, a)
  | [_] => (1%nat, a)
  | x0 :: x1 :: rest =>
      let isDescending := comparefn x1 x0 <? 0 in
      let runLength := (2 + run_extends isDescending x1 rest)%nat in
      if isDescending
      then (runLength, (rev (firstn runLength a) ++ skipn runLength a)%list)
      else (runLength, a)
  end.

(** The binary search of [BinaryInsertionSort]:
    [while (left < right) { mid = left + ((right - left) >> 1);
       if (comparefn(pivot, a[mid]) < 0) right = mid; else left = mid + 1; }]
    It ends within [right - left] iterations. *)
Fixpoint search (fuel : nat) (pivot : A) (a : list A) (left right : nat) : nat :=
  match fuel with
  | O => left
  | S fuel' =>
      if (left <? right)%nat then
        let mid := (left + (right - left) / 2)%nat in
        match nth_error a mid with
        | Some x =>
            if comparefn pivot x <? 0
            then search fuel' pivot a left mid
            else search fuel' pivot a (S mid) right
        | None => left
        end
      else left
  end.

(** One round of [BinaryInsertionSort]: [a[start]] is moved to the place
    the search finds in [a[0..start)]. *)
Definition insert_pivot (a : list A) (start : nat) : list A :=
  match nth_error a start with
  | Some pivot =>
      let left := search start pivot a 0%nat start in
      (firstn left a ++ pivot :: firstn (start - left) (skipn left a)
         ++ skipn (S start) a)%list
  | None => a
  end.

(** [for (; start < high; ++start)], with [rounds = high - start]. *)
Fixpoint BinaryInsertionSort (rounds : nat) (a : list A) (start : nat) : list A :=
  match rounds with
  | O => a
  | S rounds' => BinaryInsertionSort rounds' (insert_pivot a start) (S start)
  end.

(** [Array.prototype.sort(comparefn)] as V8 (Chrome, Node.js) runs it on an
    array of fewer than 64 elements: the leading run is found and made
    ascending, then the remaining elements are inserted by binary search.
    (From 64 elements on V8 cuts the array in such runs and merges them;
    this model sorts every array the short way.) *)
Definition v8_sort (a : list A) : list A :=
  if (List.length a <? 2)%nat then a
  else
    let (runLength, a') := CountAndMakeRun a in
    BinaryInsertionSort (List.length a - runLength) a' runLength.

End ArraySort.

(** What the language leaves to the engine: the algorithm of
    [Array.prototype.sort], and the time value [new Date(s)] has for a
    string [s] ([None] for [NaN]), which the language fixes only for
    strings in its date-time string format and up to the local time zone. *)
Record engine : Type := mkEngine {
  array_sort : forall A : Type, (A -> A -> Z) -> list A -> list A;
  Date_value : string -> option Z
}.

(** V8's sort with any reading of dates. *)
Definition v8_reading (read : string -> option Z) : engine :=
  {| array_sort := fun A cmp a => v8_sort cmp a; Date_value := read |}.

(** V8 in a time zone, on the date strings [Date_parse] reads. *)
Definition v8_zone (offset : Z -> Z) : engine := v8_reading (Date_parse offset).

(** V8 in a time zone that is [tz] minutes behind UTC all year. *)
Definition v8 (tz : Z) : engine := v8_zone (fun _ => tz).

(** The least every engine's sort does: it rearranges the array. *)
Definition rearranges (e : engine) : Prop :=
  forall (A : Type) (cmp : A -> A -> Z) (a : list A),
    Permutation (array_sort e A cmp a) a.

End Runtime.

(* ================================================================== *)
(** ** RecommendationsTable: filter, sort and badges *)

Module RecommendationsTable.
Import Runtime.

(** One row of [data]: a record of the recommendations history.
    [riskScore] is an integer (the store keeps it in an INTEGER column). *)
Record recommendation : Type := mkRecommendation {
  date : string;
  symbol : string;
  sentiment : string;
  riskScore : Z;
  pricePrediction : float;
  actualPrice : float;
  recommendations : list string;
  changePercent : float;
  predictionAccuracy : float
}.

(** The columns whose header calls [handleSort]. *)
Inductive field : Type := date_field | sentiment_field | riskScore_field.

Inductive direction : Type := asc | desc.

(** The three [useState] cells of the table. *)
Record state : Type := mkState {
  sortField : field;
  sortDirection : direction;
  filterSentiment : string
}.

Definition initial : state :=
  {| sortField := date_field; sortDirection := desc; filterSentiment := "all" |}.

(** The values of the [<option>]s of the sentiment [<select>]. *)
Definition filter_options : list string := ["all"; "bullish"; "bearish"; "neutral"].

(** [onChange={(e) => setFilterSentiment(e.target.value)}] *)
Definition setFilterSentiment (v : string) (s : state) : state :=
  {| sortField := sortField s; sortDirection := sortDirection s; filterSentiment := v |}.

(** The predicate of [data.filter(...)].  (The table filters and sorts
    once it is past its loading and no-data returns.) *)
Definition keeps (s : state) (item : recommendation) : bool :=
  if String.eqb (filterSentiment s) "all" then true
  else String.eqb (toLowerCase (sentiment item)) (filterSentiment s).

Definition filteredData (s : state) (data : list recommendation) : list recommendation :=
  filter (keeps s) data.

(** [aVal < bVal] for [aVal = a[sortField]], [bVal = b[sortField]], the two
    turned into [Date]s first when the field is [date]. *)
Definition less (e : engine) (f : field) (a b : recommendation) : bool :=
  match f with
  | date_field =>
      time_lt (Date_value e (date a)) (Date_value e (date b))
  | sentiment_field => str_lt (sentiment a) (sentiment b)
  | riskScore_field => riskScore a <? riskScore b
  end.

(** The comparison function given to [sort]. *)
Definition comparefn (e : engine) (s : state) (a b : recommendation) : Z :=
  match sortDirection s with
  | asc => if less e (sortField s) b a then 1 else -1
  | desc => if less e (sortField s) a b then 1 else -1
  end.

(** [sortedData = [...filteredData].sort(...)]: the rows the table shows. *)
Definition sortedData (e : engine) (s : state) (data : list recommendation)
  : list recommendation :=
  array_sort e recommendation (comparefn e s) (filteredData s data).

(** [sortField === field] *)
Definition field_eqb (f g : field) : bool :=
  match f, g with
  | date_field, date_field
  | sentiment_field, sentiment_field
  | riskScore_field, riskScore_field => true
  | _, _ => false
  end.

(** [handleSort(field)] *)
Definition handleSort (f : field) (s : state) : state :=
  if field_eqb (sortField s) f then
    {| sortField := sortField s;
       sortDirection := match sortDirection s with asc => desc | desc => asc end;
       filterSentiment := filterSentiment s |}
  else
    {| sortField := f; sortDirection := desc; filterSentiment := filterSentiment s |}.

(** The label of [getRiskBadge(score)]. *)
Definition getRiskBadge_label (score : Z) : string :=
  if 6 <? score then "High"
  else if 3 <? score then "Medium"
  else "Low".

(** The colour classes of [getRiskBadge(score)]. *)
Definition getRiskBadge_color (score : Z) : string :=
  if 6 <? score then "bg-red-600/20 text-red-400 border-red-600/30"
  else if 3 <? score then "bg-yellow-600/20 text-yellow-400 border-yellow-600/30"
  else "bg-green-600/20 text-green-400 border-green-600/30".

(** The class of the accuracy cell. *)
Definition accuracy_class (predictionAccuracy : float) : string :=
  if PrimFloat.leb 95 predictionAccuracy then "text-green-400"
  else if PrimFloat.leb 90 predictionAccuracy then "text-yellow-400"
  else "text-red-400".

(** The three returns of the table: the skeleton while loading, the
    "No recommendations available" card, the table. *)
Inductive mode : Type := Skeleton | NoData | Table.

(** [if (loading) ...; if (!data || !Array.isArray(data) || data.length === 0) ...] *)
Definition mode_of (loading : bool) (data : Js.value) : mode :=
  if loading then Skeleton
  else if negb (Js.truthy data) || negb (Js.isArray data) || Js.length_is_0 data
  then NoData
  else Table.

(** The "Latest Recommendations" box:
    [sortedData.length > 0 && sortedData[0].recommendations?.slice(0, 2)];
    [None] when the box is not rendered. *)
Definition preview (rows : list recommendation) : option (list string) :=
  match rows with
  | [] => None
  | first :: _ => Some (firstn 2 (recommendations first))
  end.

End RecommendationsTable.

(* ================================================================== *)
(** ** AIAnalysis: the risk assessment of the latest analysis *)

Module AIAnalysis.

(** [getRiskColor(score)] *)
Definition getRiskColor (score : Z) : string :=
  if score <=? 3 then "text-green-400 bg-green-600/20"
  else if score <=? 6 then "text-yellow-400 bg-yellow-600/20"
  else "text-red-400 bg-red-600/20".

(** [getRiskLabel(score)] *)
Definition getRiskLabel (score : Z) : string :=
  if score <=? 3 then "Low Risk"
  else if score <=? 6 then "Medium Risk"
  else "High Risk".

(** The colour of bar [i] (1 to 10) of the risk gauge. *)
Definition gauge_bar (riskScore i : Z) : string :=
  if i <=? riskScore then
    if riskScore <=? 3 then "bg-green-400"
    else if riskScore <=? 6 then "bg-yellow-400"
    else "bg-red-400"
  else "bg-gray-600".

(** The ten bars of the gauge: [[1, 2, ..., 10].map(...)]. *)
Definition gauge (riskScore : Z) : list string :=
  map (gauge_bar riskScore) [1; 2; 3; 4; 5; 6; 7; 8; 9; 10].

(** [getSentimentColor(sentiment)]; [None] is a sentiment that is
    [undefined] or [null], on which [sentiment?.toLowerCase()] is
    [undefined]. *)
Definition getSentimentColor (sentiment : option string) : string :=
  match sentiment with
  | None => "text-gray-400 bg-gray-600/20"
  | Some s =>
      let l := Runtime.toLowerCase s in
      if String.eqb l "bullish" then "text-green-400 bg-green-600/20"
      else if String.eqb l "bearish" then "text-red-400 bg-red-600/20"
      else if String.eqb l "neutral" then "text-yellow-400 bg-yellow-600/20"
      else "text-gray-400 bg-gray-600/20"
  end.

End AIAnalysis.

(* ================================================================== *)
(** ** PerformanceMetrics: the data of the two charts *)

Module PerformanceMetrics.
Import Js.

(** The returns of the panel: the skeleton, the "Performance data not
    available" card, the panel. *)
Inductive mode : Type := Skeleton | Unavailable | Panel.

(** [if (loading || !data) ...; if (!data || typeof data !== 'object') ...] *)
Definition mode_of (loading : bool) (data : value) : mode :=
  if loading || negb (truthy data) then Skeleton
  else if negb (truthy data) || negb (typeof_object data) then Unavailable
  else Panel.


Section Charts.
Variable StringToNumber : string -> float.
Variable ArrayToString : list Js.value -> string.



End Charts.

End PerformanceMetrics.

(* ================================================================== *)
(** ** StockOverview: before anything is rendered *)

Module StockOverview.
Import Js.

(** What [StockOverview] has when it reaches its second [return]: the
    skeleton was returned, or [isPositive] is computed. *)
Inductive started : Type :=
| Skeleton
| Rendering (isPositive : bool).

Section Start.
Variable StringToNumber : string -> float.
Variable ArrayToString : list Js.value -> string.

(** [if (!data) return ...; const { stockData, symbol, date } = data;
     const isPositive = stockData.change >= 0;] *)
Definition start (data : Js.value) : error + started :=
  if negb (truthy data) then inr Skeleton
  else
    let stockData := read data "stockData" in
    match get stockData "change" with
    | inl e => inl e
    | inr change =>
        inr (Rendering (PrimFloat.leb 0 (Number StringToNumber ArrayToString change)))
    end.

End Start.

End StockOverview.

(* ================================================================== *)
(** ** The shapes of the endpoints *)

Module Schema.
Import Js.

Inductive kind : Type := number | text | object | array.

Definition has_kind (k : kind) (v : value) : bool :=
  match k, v with
  | number, Num _ | text, Str _ | object, Obj _ | array, Arr _ => true
  | _, _ => false
  end.

(** [v] is an object that carries every listed key with the listed kind. *)
Definition carries (keys : list (string * kind)) (v : value) : bool :=
  match v with
  | Obj fields => forallb (fun kk => has_kind (snd kk) (lookup (fst kk) fields)) keys
  | _ => false
  end.

Definition field_of (k : string) (v : value) : value :=
  match v with Obj fields => lookup k fields | _ => Undefined end.

Definition each (p : value -> bool) (v : value) : bool :=
  match v with Arr items => forallb p items | _ => false end.

Definition numbers (keys : list string) : list (string * kind) :=
  map (fun k => (k, number)) keys.

(** [/api/latest]: [{date, symbol, stockData: {...}, aiAnalysis: {...}}] *)
Definition latest (v : value) : bool :=
  carries [("date", text); ("symbol", text); ("stockData", object); ("aiAnalysis", object)] v
  && carries (numbers ["open"; "close"; "high"; "low"; "volume"; "vwap";
                       "transactions"; "change"; "changePercent"])
             (field_of "stockData" v)
  && carries [("sentiment", text); ("riskScore", number); ("pricePrediction", number);
              ("recommendations", array)]
             (field_of "aiAnalysis" v).

(** [/api/historical]: an array of [{date, open, close, high, low, volume, vwap}] *)
Definition historical (v : value) : bool :=
  each (carries (("date", text)
                 :: numbers ["open"; "close"; "high"; "low"; "volume"; "vwap"])) v.

(** [/api/recommendations]: an array of recommendation records *)
Definition recommendations (v : value) : bool :=
  each (carries [("date", text); ("symbol", text); ("sentiment", text);
                 ("riskScore", number); ("pricePrediction", number);
                 ("actualPrice", number); ("recommendations", array);
                 ("changePercent", number); ("predictionAccuracy", number)]) v.

(** [/api/metrics]: the performance metrics object *)
Definition metrics (v : value) : bool :=
  carries [("totalDaysAnalyzed", number); ("totalRecommendations", number);
           ("sentimentDistribution", object); ("averageRiskScore", number);
           ("priceMetrics", object)] v
  && carries (numbers ["minPrice"; "maxPrice"; "avgPrice"; "avgVolume"])
             (field_of "priceMetrics" v).

End Schema.

(* ================================================================== *)
(** ** Networks and data used as examples *)

Module Samples.
Import Js Effects DatabaseService.

Definition answer (v : value) : outcome := Responded (mkResponse 200 "OK" (inr v)).
Definition unreachable : outcome := NoResponse (TypeError "Failed to fetch").
Definition not_found : outcome := Responded (mkResponse 404 "Not Found" (inr Null)).
Definition unavailable : outcome :=
  Responded (mkResponse 503 "Service Unavailable" (inr Null)).
Definition garbled : outcome :=
  Responded (mkResponse 200 "OK"
    (inl (mkError "SyntaxError" "Unexpected token < in JSON at position 0"))).

(** A network that answers the four endpoints as given. *)
Definition serving (latest historical recs metrics : outcome) : network :=
  fun url =>
    if String.eqb url latest_url then latest
    else if String.eqb url historical_url then historical
    else if String.eqb url recommendations_url then recs
    else if String.eqb url metrics_url then metrics
    else not_found.

(** The latest analysis of the mock service. *)
Definition latest_body : value :=
  Obj [ ("id", N 7);
        ("date", Str "2025-09-12");
        ("symbol", Str "AAPL");
        ("stockData",
          Obj [ ("open", N 229.22); ("close", N 234.07); ("high", N 234.51);
                ("low", N 229.02); ("volume", N 55824216); ("vwap", N 231.5);
                ("transactions", N 850000); ("change", N 4.85);
                ("changePercent", N 2.12) ]);
        ("aiAnalysis",
          Obj [ ("sentiment", Str "bullish"); ("riskScore", N 6);
                ("pricePrediction", N 235.0) ]) ].

(** The two recommendations of the mock service. *)
Definition recommendations_body : value :=
  Arr [ Obj [ ("date", Str "2025-09-12"); ("symbol", Str "AAPL");
              ("sentiment", Str "bullish"); ("riskScore", N 6);
              ("pricePrediction", N 235.0); ("actualPrice", N 234.07);
              ("changePercent", N 2.12); ("predictionAccuracy", N 99.6) ];
        Obj [ ("date", Str "2025-09-11"); ("symbol", Str "AAPL");
              ("sentiment", Str "bullish"); ("riskScore", N 6);
              ("pricePrediction", N 225.5); ("actualPrice", N 230.03);
              ("changePercent", N 1.39); ("predictionAccuracy", N 98.0) ] ].

(** Every endpoint answers. *)
Definition all_up : network :=
  serving (answer latest_body) (answer getFallbackHistoricalData)
          (answer recommendations_body) (answer getFallbackMetrics).

(** Only [/api/metrics] fails. *)
Definition metrics_down : network :=
  serving (answer latest_body) (answer getFallbackHistoricalData)
          (answer recommendations_body) unavailable.

(** Every endpoint fails, each in another way. *)
Definition all_down : network := serving unreachable not_found garbled unavailable.

End Samples.

Module Rows.
Import RecommendationsTable.

(** The two recommendations of the mock service, as rows. *)
Definition mock_0912 : recommendation :=
  {| date := "2025-09-12"; symbol := "AAPL"; sentiment := "bullish"; riskScore := 6;
     pricePrediction := 235.0; actualPrice := 234.07;
     recommendations := ["Buy AAPL due to strong quarterly earnings";
                         "Good long-term investment"];
     changePercent := 2.12; predictionAccuracy := 99.6 |}.

Definition mock_0911 : recommendation :=
  {| date := "2025-09-11"; symbol := "AAPL"; sentiment := "bullish"; riskScore := 6;
     pricePrediction := 225.5; actualPrice := 230.03;
     recommendations := ["Buy AAPL for long term growth";
                         "Hold for stable financials"];
     changePercent := 1.39; predictionAccuracy := 98.0 |}.

(** A row dated [d] with the given sentiment. *)
Definition dated (d : string) (sent : string) : recommendation :=
  {| date := d; symbol := "AAPL"; sentiment := sent; riskScore := 5;
     pricePrediction := 230.0; actualPrice := 231.0; recommendations := [];
     changePercent := 0.5; predictionAccuracy := 97.0 |}.

Definition sep_12 : recommendation := dated "2025-09-12" "Bearish".
Definition sep_1 : recommendation := dated "2025-09-1" "bullish".
Definition sep_2 : recommendation := dated "2025-09-2" "BULLISH".

End Rows.

(** The rows ordered by risk score, lowest first and highest first. *)
Definition by_risk (rows : list RecommendationsTable.recommendation) : Prop :=
  StronglySorted
    (fun x y => RecommendationsTable.riskScore x <= RecommendationsTable.riskScore y) rows.

Definition by_risk_descending (rows : list RecommendationsTable.recommendation) : Prop :=
  StronglySorted
    (fun x y => RecommendationsTable.riskScore y <= RecommendationsTable.riskScore x) rows.

(** A score brought into the range of the gauge. *)
Definition clamp_0_10 (score : Z) : Z := Z.max 0 (Z.min 10 score).

(** The bars of a gauge that are lit. *)
Definition lit (bars : list string) : nat :=
  List.length (filter (fun c => negb (String.eqb c "bg-gray-600")) bars).

(** Two strings are equal when case is ignored. *)
Definition same_ignoring_case (a b : string) : bool :=
  String.eqb (Runtime.toLowerCase a) (Runtime.toLowerCase b).

(** The rows a filter value asks for: all of them for [all], otherwise
    those whose sentiment is the value, case ignored. *)
Definition asked_for (v : string) (item : RecommendationsTable.recommendation) : bool :=
  String.eqb v "all" || same_ignoring_case (RecommendationsTable.sentiment item) v.

(** The risk bands: up to 3, 4 to 6, above 6. *)
Inductive band : Type := Low | Medium | High.

Definition risk_band (score : Z) : band :=
  if score <=? 3 then Low else if score <=? 6 then Medium else High.

Definition band_name (b : band) : string :=
  match b with Low => "Low" | Medium => "Medium" | High => "High" end.

(** The time value of a row's date under a reading of dates, for rows
    whose date is valid. *)
Definition time_of (read : string -> option Z)
    (item : RecommendationsTable.recommendation) : Z :=
  match read (RecommendationsTable.date item) with
  | Some t => t
  | None => 0
  end.

(** The date of a row is valid: its time value is not [NaN]. *)
Definition valid_date (read : string -> option Z)
    (item : RecommendationsTable.recommendation) : Prop :=
  read (RecommendationsTable.date item) <> None.

(** The rows are in the order of their time values, earliest first. *)
Definition chronological (read : string -> option Z)
    (rows : list RecommendationsTable.recommendation) : Prop :=
  StronglySorted (fun x y => time_of read x <= time_of read y) rows.

(** The rows are in the order of their time values, latest first. *)
Definition latest_first (read : string -> option Z)
    (rows : list RecommendationsTable.recommendation) : Prop :=
  StronglySorted (fun x y => - time_of read x <= - time_of read y) rows.

(** [v.k] where reading it does not throw. *)
Definition property (v : Js.value) (k : string) : Js.value :=
  match Js.get v k with
  | inr x => x
  | inl _ => Js.Undefined
  end.

(** The object [getLatestStockData] builds from a parsed body. *)
Definition latest_of (data : Js.value) : Js.value :=
  Js.Obj [ ("id", Js.or (property data "id") (DatabaseService.N 1));
           ("date", property data "date");
           ("symbol", property data "symbol");
           ("stockData", property data "stockData");
           ("aiAnalysis", property data "aiAnalysis") ].

(* ================================================================== *)
(** * Properties of the gateway *)

Section Gateway.
Import Js Effects DatabaseService.
Local Open Scope async_scope.

(** A [try] whose [catch] logs and returns [fallback] never rejects: the
    promise is fulfilled with the value of the body, or with [fallback]
    when the body throws. *)
Lemma promise_try_fallback (body : async value) (fallback : value) (net : network) :
  promise (try_catch body (fun _ => console_error ;; ret fallback)) net
  = Fulfilled (match snd (body net) with inr v => v | inl _ => fallback end).
Proof.
  unfold promise, try_catch.
  destruct (body net) as [t [e | v]]; reflexivity.
Qed.

(** Everything after a failed request is skipped. *)
Lemma failed_request_throws (url : string) (net : network) (k : failure)
      (rest : value -> async value) :
  failure_of (net url) = Some k ->
  exists e,
    snd ((console_log ;;
          response <- fetch url ;;
          check_ok response ;;
          data <- lift (json response) ;;
          rest data) net) = inl e.
Proof.
  unfold failure_of, bind, console_log, fetch, check_ok, lift, throw, ret.
  destruct (net url) as [e | r]; cbn.
  - intros _. now exists e.
  - destruct (ok r); cbn.
    + destruct (json r) as [e | v]; cbn; [intros _; now exists e | discriminate].
    + intros _. eexists. reflexivity.
Qed.

Lemma getLatestStockData_failure net k :
  failure_of (net latest_url) = Some k ->
  promise getLatestStockData net = Fulfilled getFallbackLatestData.
Proof.
  intros H. unfold getLatestStockData. rewrite promise_try_fallback.
  destruct (failed_request_throws latest_url net k
              (fun data =>
                 console_log ;;
                 id <- lift (get data "id") ;;
                 date <- lift (get data "date") ;;
                 symbol <- lift (get data "symbol") ;;
                 stockData <- lift (get data "stockData") ;;
                 aiAnalysis <- lift (get data "aiAnalysis") ;;
                 ret (Obj [ ("id", or id (N 1)); ("date", date); ("symbol", symbol);
                            ("stockData", stockData); ("aiAnalysis", aiAnalysis) ])) H)
    as [e He].
  now rewrite He.
Qed.

Lemma getHistoricalData_failure net days k :
  failure_of (net historical_url) = Some k ->
  promise (getHistoricalData days) net = Fulfilled getFallbackHistoricalData.
Proof.
  intros H. unfold getHistoricalData. rewrite promise_try_fallback.
  destruct (failed_request_throws historical_url net k
              (fun data => len <- lift (get data "length") ;; console_log ;; ret data) H)
    as [e He].
  now rewrite He.
Qed.

Lemma getAllRecommendations_failure net k :
  failure_of (net recommendations_url) = Some k ->
  promise getAllRecommendations net = Fulfilled getFallbackRecommendations.
Proof.
  intros H. unfold getAllRecommendations. rewrite promise_try_fallback.
  destruct (failed_request_throws recommendations_url net k
              (fun data => len <- lift (get data "length") ;; console_log ;; ret data) H)
    as [e He].
  now rewrite He.
Qed.

Lemma getPerformanceMetrics_failure net k :
  failure_of (net metrics_url) = Some k ->
  promise getPerformanceMetrics net = Fulfilled getFallbackMetrics.
Proof.
  intros H. unfold getPerformanceMetrics. rewrite promise_try_fallback.
  destruct (failed_request_throws metrics_url net k
              (fun data => console_log ;; ret data) H)
    as [e He].
  now rewrite He.
Qed.

Lemma getLatestStockData_resolves net :
  exists v, promise getLatestStockData net = Fulfilled v.
Proof. unfold getLatestStockData. rewrite promise_try_fallback. eauto. Qed.

Lemma getHistoricalData_resolves net days :
  exists v, promise (getHistoricalData days) net = Fulfilled v.
Proof. unfold getHistoricalData. rewrite promise_try_fallback. eauto. Qed.

Lemma getAllRecommendations_resolves net :
  exists v, promise getAllRecommendations net = Fulfilled v.
Proof. unfold getAllRecommendations. rewrite promise_try_fallback. eauto. Qed.

Lemma getPerformanceMetrics_resolves net :
  exists v, promise getPerformanceMetrics net = Fulfilled v.
Proof. unfold getPerformanceMetrics. rewrite promise_try_fallback. eauto. Qed.

Lemma fallbacks_have_their_shape :
  Schema.latest getFallbackLatestData = true
  /\ Schema.historical getFallbackHistoricalData = true
  /\ Schema.recommendations getFallbackRecommendations = true
  /\ Schema.metrics getFallbackMetrics = true.
Proof. repeat split; reflexivity. Qed.

End Gateway.

(* ================================================================== *)
(** * Properties of the refresh cycle *)

Section RefreshCycle.
Import Js Effects DatabaseService App.
Local Open Scope async_scope.

Ltac run_request net url :=
  unfold trace, promise, try_catch, bind, console_log, console_error, fetch,
    check_ok, lift, throw, ret;
  destruct (net url) as [? | r]; cbn -[ok]; [reflexivity |];
  destruct (ok r); cbn; [| reflexivity];
  destruct (json r) as [? | []]; reflexivity.

(** Each operation issues exactly one request, to its own URL. *)
Lemma getLatestStockData_requests net :
  requests (trace getLatestStockData net) = [latest_url].
Proof. unfold getLatestStockData. run_request net latest_url. Qed.

Lemma getHistoricalData_requests net days :
  requests (trace (getHistoricalData days) net) = [historical_url].
Proof. unfold getHistoricalData. run_request net historical_url. Qed.

Lemma getAllRecommendations_requests net :
  requests (trace getAllRecommendations net) = [recommendations_url].
Proof. unfold getAllRecommendations. run_request net recommendations_url. Qed.

Lemma getPerformanceMetrics_requests net :
  requests (trace getPerformanceMetrics net) = [metrics_url].
Proof. unfold getPerformanceMetrics. run_request net metrics_url. Qed.

Lemma requests_app t1 t2 : requests (t1 ++ t2) = (requests t1 ++ requests t2)%list.
Proof.
  induction t1 as [| [url | |] t1 IH]; cbn; [reflexivity | now rewrite IH | exact IH ..].
Qed.

(** What each operation does at once: it logs and sends its request. *)
Lemma getLatestStockData_start net :
  until_request (trace getLatestStockData net) = [ConsoleLog; Get latest_url].
Proof. unfold getLatestStockData. run_request net latest_url. Qed.

Lemma getAllRecommendations_start net :
  until_request (trace getAllRecommendations net)
  = [ConsoleLog; Get recommendations_url].
Proof. unfold getAllRecommendations. run_request net recommendations_url. Qed.

Lemma getPerformanceMetrics_start net :
  until_request (trace getPerformanceMetrics net) = [ConsoleLog; Get metrics_url].
Proof. unfold getPerformanceMetrics. run_request net metrics_url. Qed.

Lemma requests_split t :
  requests t = (requests (until_request t) ++ requests (after_request t))%list.
Proof.
  induction t as [| [url | |] t IH]; cbn; [reflexivity | reflexivity | exact IH ..].
Qed.

(** Once its request is sent, a call sends no other. *)
Lemma no_request_after (op : async value) (net : network) (url : string) :
  requests (trace op net) = [url] ->
  until_request (trace op net) = [ConsoleLog; Get url] ->
  requests (after_request (trace op net)) = [].
Proof.
  intros Hr Hs. pose proof (requests_split (trace op net)) as H.
  rewrite Hr, Hs in H. cbn in H. now injection H as <-.
Qed.

(** Each of the three calls is fulfilled, and sends nothing after its
    request. *)
Lemma gateway_call_settles (op : async value) (net : network) :
  In op gateway_calls ->
  (exists v, promise op net = Fulfilled v)
  /\ requests (after_request (trace op net)) = [].
Proof.
  intros [<- | [<- | [<- | []]]].
  - split; [apply getLatestStockData_resolves |].
    apply (no_request_after _ net latest_url);
      [apply getLatestStockData_requests | apply getLatestStockData_start].
  - split; [apply getAllRecommendations_resolves |].
    apply (no_request_after _ net recommendations_url);
      [apply getAllRecommendations_requests | apply getAllRecommendations_start].
  - split; [apply getPerformanceMetrics_resolves |].
    apply (no_request_after _ net metrics_url);
      [apply getPerformanceMetrics_requests | apply getPerformanceMetrics_start].
Qed.

Lemma started_events net :
  started net
  = [ConsoleLog; Get latest_url; ConsoleLog; Get recommendations_url;
     ConsoleLog; Get metrics_url].
Proof.
  unfold started, gateway_calls. cbn [flat_map].
  rewrite getLatestStockData_start, getAllRecommendations_start,
    getPerformanceMetrics_start.
  reflexivity.
Qed.

(** When every call is fulfilled, the calls go on in the order they finish
    in and the success is logged last. *)
Lemma settling_fulfilled (finishing : list (async value)) (net : network) :
  (forall op, In op finishing -> exists v, promise op net = Fulfilled v) ->
  settling finishing net
  = (flat_map (fun op => after_request (trace op net)) finishing ++ [ConsoleLog])%list
  /\ exists vs, Promise_all (map (fun op => promise op net) finishing) = Fulfilled vs.
Proof.
  induction finishing as [| op rest IH]; intros H; cbn [settling flat_map map Promise_all].
  - split; [reflexivity | now exists []].
  - destruct (H op (or_introl eq_refl)) as [v Hv].
    destruct (IH (fun op' Hin => H op' (or_intror Hin))) as [E [vs Hvs]].
    rewrite Hv, E, Hvs. split; [now rewrite app_assoc | now exists (v :: vs)].
Qed.

Lemma finishing_calls (finishing : list (async value)) (net : network) :
  Permutation finishing gateway_calls ->
  forall op, In op finishing ->
    (exists v, promise op net = Fulfilled v)
    /\ requests (after_request (trace op net)) = [].
Proof.
  intros P op Hin. apply gateway_call_settles. exact (Permutation_in _ P Hin).
Qed.

Lemma requests_flat_map (f : async value -> list event) (l : list (async value)) :
  (forall op, In op l -> requests (f op) = []) ->
  requests (flat_map f l) = [].
Proof.
  induction l as [| op l IH]; intros H; cbn [flat_map]; [reflexivity |].
  rewrite requests_app, (H op (or_introl eq_refl)), IH; [reflexivity |].
  intros op' Hin. apply H. now right.
Qed.

(** The events of a cycle, in whatever order the calls finish: the three
    requests are sent before any call goes on, and no request follows. *)
Lemma fetchDashboardData_events finishing now net s :
  Permutation finishing gateway_calls ->
  fst (fetchDashboardData_finishing finishing now net s)
  = ([ConsoleLog; ConsoleLog; Get latest_url; ConsoleLog; Get recommendations_url;
      ConsoleLog; Get metrics_url]
     ++ flat_map (fun op => after_request (trace op net)) finishing
     ++ [ConsoleLog])%list
  /\ requests (flat_map (fun op => after_request (trace op net)) finishing) = [].
Proof.
  intros P. pose proof (finishing_calls finishing net P) as H.
  destruct (settling_fulfilled finishing net (fun op Hin => proj1 (H op Hin))) as [E _].
  unfold fetchDashboardData_finishing. cbn [fst].
  rewrite E, started_events. split; [reflexivity |].
  apply requests_flat_map. intros op Hin. apply (H op Hin).
Qed.

(** The state a cycle ends in, in whatever order the calls finish: the
    three results, the time, no error. *)
Lemma fetchDashboardData_finishing_state finishing now net s :
  Permutation finishing gateway_calls ->
  exists latest recs performanceMetrics,
    promise getLatestStockData net = Fulfilled latest
    /\ promise getAllRecommendations net = Fulfilled recs
    /\ promise getPerformanceMetrics net = Fulfilled performanceMetrics
    /\ snd (fetchDashboardData_finishing finishing now net s)
       = {| latestData := latest; recommendations := recs;
            metrics := performanceMetrics; loading := false; error := Null;
            lastUpdated := Some now |}.
Proof.
  intros P. pose proof (finishing_calls finishing net P) as H.
  destruct (settling_fulfilled finishing net (fun op Hin => proj1 (H op Hin)))
    as [_ [vs Hvs]].
  destruct (getLatestStockData_resolves net) as [l Hl].
  destruct (getAllRecommendations_resolves net) as [r Hr].
  destruct (getPerformanceMetrics_resolves net) as [m Hm].
  exists l, r, m. repeat split; try assumption.
  unfold fetchDashboardData_finishing, settled_state. cbn [snd]. rewrite Hvs.
  unfold gateway_calls. cbn [map Promise_all].
  rewrite Hl, Hr, Hm. reflexivity.
Qed.

(** The requests of a cycle: one per call given to [Promise.all]. *)
Lemma fetchDashboardData_requests now net s :
  requests (fst (fetchDashboardData now net s))
  = [latest_url; recommendations_url; metrics_url].
Proof.
  unfold fetchDashboardData.
  destruct (fetchDashboardData_events gateway_calls now net s (Permutation_refl _))
    as [E R].
  rewrite E, !requests_app, R. reflexivity.
Qed.

(** The state a cycle ends in: the three results, the time, no error. *)
Lemma fetchDashboardData_state now net s :
  exists latest recs performanceMetrics,
    promise getLatestStockData net = Fulfilled latest
    /\ promise getAllRecommendations net = Fulfilled recs
    /\ promise getPerformanceMetrics net = Fulfilled performanceMetrics
    /\ snd (fetchDashboardData now net s)
       = {| latestData := latest; recommendations := recs;
            metrics := performanceMetrics; loading := false; error := Null;
            lastUpdated := Some now |}.
Proof.
  exact (fetchDashboardData_finishing_state gateway_calls now net s (Permutation_refl _)).
Qed.

(** The state a cycle ends in, given what the three promises hold. *)
Lemma fetchDashboardData_holds now net s latest recs performanceMetrics :
  promise getLatestStockData net = Fulfilled latest ->
  promise getAllRecommendations net = Fulfilled recs ->
  promise getPerformanceMetrics net = Fulfilled performanceMetrics ->
  snd (fetchDashboardData now net s)
  = {| latestData := latest; recommendations := recs;
       metrics := performanceMetrics; loading := false; error := Null;
       lastUpdated := Some now |}.
Proof.
  intros Hl Hr Hm.
  destruct (fetchDashboardData_state now net s) as (l & r & m & Hl' & Hr' & Hm' & E).
  rewrite E. congruence.
Qed.

End RefreshCycle.

(* ================================================================== *)
(** * The gateway and the refresh cycle: the claims *)

Section GatewayClaims.
Import Js Effects DatabaseService App.
Local Open Scope async_scope.

(** C1. Each of the four gateway operations returns a promise that is
    fulfilled whatever the network does; when the request fails (no
    response, a status outside 200-299, or a body that does not parse) it is
    fulfilled with the fixed fallback value of its endpoint, the same for
    the three kinds of failure; and each fallback value has the shape of its
    endpoint. *)
Theorem gateway_operations_always_resolve (net : network) (days : value) :
  ((exists v, promise getLatestStockData net = Fulfilled v)
   /\ (exists v, promise (getHistoricalData days) net = Fulfilled v)
   /\ (exists v, promise getAllRecommendations net = Fulfilled v)
   /\ (exists v, promise getPerformanceMetrics net = Fulfilled v))
  /\ ((forall k, failure_of (net latest_url) = Some k ->
         promise getLatestStockData net = Fulfilled getFallbackLatestData)
      /\ (forall k, failure_of (net historical_url) = Some k ->
            promise (getHistoricalData days) net = Fulfilled getFallbackHistoricalData)
      /\ (forall k, failure_of (net recommendations_url) = Some k ->
            promise getAllRecommendations net = Fulfilled getFallbackRecommendations)
      /\ (forall k, failure_of (net metrics_url) = Some k ->
            promise getPerformanceMetrics net = Fulfilled getFallbackMetrics))
  /\ (Schema.latest getFallbackLatestData = true
      /\ Schema.historical getFallbackHistoricalData = true
      /\ Schema.recommendations getFallbackRecommendations = true
      /\ Schema.metrics getFallbackMetrics = true).
Proof.
  split; [| split].
  - split; [| split; [| split]].
    + apply getLatestStockData_resolves.
    + apply getHistoricalData_resolves.
    + apply getAllRecommendations_resolves.
    + apply getPerformanceMetrics_resolves.
  - split; [| split; [| split]]; intros k H.
    + exact (getLatestStockData_failure net k H).
    + exact (getHistoricalData_failure net days k H).
    + exact (getAllRecommendations_failure net k H).
    + exact (getPerformanceMetrics_failure net k H).
  - exact fallbacks_have_their_shape.
Qed.

Lemma gateway_operations_always_resolve_witness :
  promise getLatestStockData Samples.all_down = Fulfilled getFallbackLatestData
  /\ promise (getHistoricalData Undefined) Samples.all_down
     = Fulfilled getFallbackHistoricalData
  /\ promise getAllRecommendations Samples.all_down = Fulfilled getFallbackRecommendations
  /\ promise getPerformanceMetrics Samples.all_down = Fulfilled getFallbackMetrics.
Proof.
  destruct (gateway_operations_always_resolve Samples.all_down Undefined)
    as (_ & (Hl & Hh & Hr & Hm) & _).
  split; [| split; [| split]].
  - apply (Hl TransportFailure). reflexivity.
  - apply (Hh StatusFailure). reflexivity.
  - apply (Hr ParseFailure). reflexivity.
  - apply (Hm StatusFailure). reflexivity.
Defined.

(** C2, as stated: a refresh cycle calls all four gateway operations.  It
    does not: with every endpoint up, no request goes to [/api/historical],
    the one request [getHistoricalData] makes. *)
Lemma refresh_cycle_skips_historical :
  ~ In historical_url
      (requests (fst (fetchDashboardData 0 Samples.all_up App.initial)))
  /\ List.length (requests (fst (fetchDashboardData 0 Samples.all_up App.initial))) = 3%nat.
Proof.
  rewrite fetchDashboardData_requests. split; [| reflexivity].
  intros [H | [H | [H | []]]]; discriminate H.
Qed.

(** C2, amended. A refresh cycle, whatever starts it (the initial load,
    the timer of 5 minutes or the Refresh button), calls three gateway
    operations ([getLatestStockData], [getAllRecommendations],
    [getPerformanceMetrics]; not [getHistoricalData]) concurrently: each
    call logs and sends its one request before any of them goes on, and in
    whatever order [finishing] the three then finish, each goes on in one
    piece and sends no further request, and the success is logged last.
    All three are fulfilled, and the cycle ends with [latestData],
    [recommendations] and [metrics] replaced by their values, [lastUpdated]
    set to the current time, [loading] false and no error. *)
Theorem refresh_cycle_replaces_view_model
    (t : trigger) (finishing : list (async value)) (now : Z) (net : network)
    (s : state) :
  Permutation finishing gateway_calls ->
  refresh_interval = 300000
  /\ gateway_calls = [getLatestStockData; getAllRecommendations; getPerformanceMetrics]
  /\ fst (on_trigger_finishing t finishing now net s)
     = ([ConsoleLog;
         ConsoleLog; Get latest_url;
         ConsoleLog; Get recommendations_url;
         ConsoleLog; Get metrics_url]
        ++ flat_map (fun op => after_request (trace op net)) finishing
        ++ [ConsoleLog])%list
  /\ requests (flat_map (fun op => after_request (trace op net)) finishing) = []
  /\ requests (fst (on_trigger_finishing t finishing now net s))
     = [latest_url; recommendations_url; metrics_url]
  /\ on_trigger t now net s = on_trigger_finishing t gateway_calls now net s
  /\ exists latest recs performanceMetrics,
       promise getLatestStockData net = Fulfilled latest
       /\ promise getAllRecommendations net = Fulfilled recs
       /\ promise getPerformanceMetrics net = Fulfilled performanceMetrics
       /\ snd (on_trigger_finishing t finishing now net s)
          = {| latestData := latest; recommendations := recs;
               metrics := performanceMetrics; loading := false; error := Null;
               lastUpdated := Some now |}.
Proof.
  intros P.
  split; [reflexivity | split; [reflexivity |]].
  replace (on_trigger_finishing t finishing now net s)
    with (fetchDashboardData_finishing finishing now net s)
    by (destruct t; reflexivity).
  destruct (fetchDashboardData_events finishing now net s P) as [E R].
  split; [exact E | split; [exact R | split; [| split]]].
  - rewrite E, !requests_app, R. reflexivity.
  - destruct t; reflexivity.
  - exact (fetchDashboardData_finishing_state finishing now net s P).
Qed.

Lemma refresh_cycle_replaces_view_model_witness :
  fst (on_trigger_finishing RefreshClick
         [getPerformanceMetrics; getAllRecommendations; getLatestStockData]
         0 Samples.all_up App.initial)
  = [ConsoleLog;
     ConsoleLog; Get latest_url;
     ConsoleLog; Get recommendations_url;
     ConsoleLog; Get metrics_url;
     ConsoleLog; ConsoleLog; ConsoleLog;
     ConsoleLog].
Proof.
  assert (P : Permutation
                [getPerformanceMetrics; getAllRecommendations; getLatestStockData]
                gateway_calls).
  { exact (Permutation_sym (Permutation_rev gateway_calls)). }
  destruct (refresh_cycle_replaces_view_model RefreshClick _ 0 Samples.all_up
              App.initial P) as (_ & _ & E & _).
  rewrite E. reflexivity.
Defined.

(** What a successful request resolves to. *)
Lemma getLatestStockData_success net r data :
  net latest_url = Responded r -> ok r = true -> json r = inr data ->
  data <> Null -> data <> Undefined ->
  promise getLatestStockData net = Fulfilled (latest_of data).
Proof.
  intros Hn Hok Hj H1 H2.
  unfold getLatestStockData, promise, try_catch, bind, console_log, console_error,
    fetch, check_ok, lift, throw, ret.
  rewrite Hn. cbn -[ok]. rewrite Hok, Hj. cbn.
  destruct data; try congruence; reflexivity.
Qed.

Lemma getAllRecommendations_success net r data :
  net recommendations_url = Responded r -> ok r = true -> json r = inr data ->
  data <> Null -> data <> Undefined ->
  promise getAllRecommendations net = Fulfilled data.
Proof.
  intros Hn Hok Hj H1 H2.
  unfold getAllRecommendations, promise, try_catch, bind, console_log, console_error,
    fetch, check_ok, lift, throw, ret.
  rewrite Hn. cbn -[ok]. rewrite Hok, Hj. cbn.
  destruct data; try congruence; reflexivity.
Qed.

(** C3. When the request to [/api/metrics] fails while [/api/latest] and
    [/api/recommendations] answer with a 2xx status and a parsed body other
    than [null], [getPerformanceMetrics] is fulfilled with the fallback
    metrics, and the cycle ends with no error, in the [Ready] presentation,
    with [latestData] built from the body of [/api/latest],
    [recommendations] the body of [/api/recommendations] and [metrics] the
    fallback metrics. *)
Theorem metrics_failure_still_ready
    (now : Z) (net : network) (s : state) (k : failure)
    (r1 r2 : response) (latest recs : value) :
  failure_of (net metrics_url) = Some k ->
  net latest_url = Responded r1 -> ok r1 = true -> json r1 = inr latest ->
  latest <> Null -> latest <> Undefined ->
  net recommendations_url = Responded r2 -> ok r2 = true -> json r2 = inr recs ->
  recs <> Null -> recs <> Undefined ->
  promise getPerformanceMetrics net = Fulfilled getFallbackMetrics
  /\ snd (fetchDashboardData now net s)
     = {| latestData := latest_of latest; recommendations := recs;
          metrics := getFallbackMetrics; loading := false; error := Null;
          lastUpdated := Some now |}
  /\ presentation_of (snd (fetchDashboardData now net s)) = Ready.
Proof.
  intros Hm Hn1 Hok1 Hj1 Hl1 Hl2 Hn2 Hok2 Hj2 Hr1 Hr2.
  pose proof (getPerformanceMetrics_failure net k Hm) as Pm.
  pose proof (getLatestStockData_success net r1 latest Hn1 Hok1 Hj1 Hl1 Hl2) as Pl.
  pose proof (getAllRecommendations_success net r2 recs Hn2 Hok2 Hj2 Hr1 Hr2) as Pr.
  assert (E : snd (fetchDashboardData now net s)
     = {| latestData := latest_of latest; recommendations := recs;
          metrics := getFallbackMetrics; loading := false; error := Null;
          lastUpdated := Some now |}).
  { exact (fetchDashboardData_holds now net s _ _ _ Pl Pr Pm). }
  split; [exact Pm | split; [exact E |]].
  rewrite E. reflexivity.
Qed.

Lemma metrics_failure_still_ready_witness :
  promise getPerformanceMetrics Samples.metrics_down = Fulfilled getFallbackMetrics
  /\ snd (fetchDashboardData 1757635200000 Samples.metrics_down App.initial)
     = {| latestData := latest_of Samples.latest_body;
          recommendations := Samples.recommendations_body;
          metrics := getFallbackMetrics; loading := false; error := Null;
          lastUpdated := Some 1757635200000 |}
  /\ presentation_of (snd (fetchDashboardData 1757635200000 Samples.metrics_down App.initial))
     = Ready.
Proof.
  apply (metrics_failure_still_ready 1757635200000 Samples.metrics_down App.initial
           StatusFailure
           (mkResponse 200 "OK" (inr Samples.latest_body))
           (mkResponse 200 "OK" (inr Samples.recommendations_body))
           Samples.latest_body Samples.recommendations_body);
    try reflexivity; discriminate.
Defined.

(** C10. [getHistoricalData] does the same whatever [days] is: the same
    events and the same result on the same network, with one request, to
    [/api/historical] without a query. *)
Theorem getHistoricalData_ignores_days (net : network) (d1 d2 : value) :
  getHistoricalData d1 net = getHistoricalData d2 net
  /\ promise (getHistoricalData d1) net = promise (getHistoricalData d2) net
  /\ requests (trace (getHistoricalData d1) net) = [API_BASE_URL ++ "/api/historical"]
  /\ requests (trace (getHistoricalData d2) net) = [API_BASE_URL ++ "/api/historical"].
Proof.
  split; [reflexivity | split; [reflexivity | split]].
  - apply getHistoricalData_requests.
  - apply getHistoricalData_requests.
Qed.

End GatewayClaims.

(* ================================================================== *)
(** * Properties of the runtime model *)

Section FloatOrder.

(** The comparison of two floats read the other way round. *)
Lemma SFcompare_antisym (x y : spec_float) :
  SFcompare y x = option_map CompOpp (SFcompare x y).
Proof.
  destruct x as [sx | sx | | sx mx ex], y as [sy | sy | | sy my ey]; cbn;
    try reflexivity;
    try (destruct sx; reflexivity); try (destruct sy; reflexivity);
    try (destruct sx, sy; reflexivity).
  destruct sx, sy; try reflexivity.
  all: rewrite (Z.compare_antisym ex ey).
  all: destruct (ex ?= ey)%Z; cbn; try reflexivity.
  all: rewrite (Pos.compare_cont_antisym mx my Eq); reflexivity.
Qed.

(** [a < c] excludes [c <= a]. *)
Lemma ltb_not_leb (a c : float) :
  PrimFloat.ltb a c = true -> PrimFloat.leb c a = false.
Proof.
  rewrite FloatAxioms.ltb_spec, FloatAxioms.leb_spec. unfold SFltb, SFleb.
  rewrite (SFcompare_antisym (Prim2SF a) (Prim2SF c)).
  destruct (SFcompare (Prim2SF a) (Prim2SF c)) as [[| |] |]; cbn; congruence.
Qed.

Lemma Prim2SF_90 : Prim2SF 90 = S754_finite false 6333186975989760 (-46).
Proof. vm_compute. reflexivity. Qed.

Lemma Prim2SF_95 : Prim2SF 95 = S754_finite false 6685030696878080 (-46).
Proof. vm_compute. reflexivity. Qed.

Lemma compare_cont_below (m c d : positive) :
  (c < d)%positive ->
  Pos.compare_cont Eq m c = Lt -> Pos.compare_cont Eq m d = Lt.
Proof.
  change (Pos.compare_cont Eq m c) with (Pos.compare m c).
  change (Pos.compare_cont Eq m d) with (Pos.compare m d).
  rewrite !Pos.compare_lt_iff. intros H1 H2. exact (Pos.lt_trans _ _ _ H2 H1).
Qed.

(** A float below 90 is below 95. *)
Lemma below_90_below_95 (a : float) :
  PrimFloat.ltb a 90 = true -> PrimFloat.ltb a 95 = true.
Proof.
  rewrite !FloatAxioms.ltb_spec, Prim2SF_90, Prim2SF_95. unfold SFltb.
  assert (L : (6333186975989760 < 6685030696878080)%positive) by reflexivity.
  revert L.
  generalize 6333186975989760%positive 6685030696878080%positive.
  intros c d L.
  destruct (Prim2SF a) as [s | s | | s m e]; cbn [SFcompare]; try congruence.
  destruct s; try congruence.
  destruct (e ?= -46)%Z; try congruence.
  destruct (Pos.compare_cont Eq m c) eqn:E; try congruence.
  now rewrite (compare_cont_below m c d L E).
Qed.

End FloatOrder.

Section SortRearranges.
Import Runtime.
Context {A : Type}.
Variable comparefn : A -> A -> Z.

(** The search stays between its bounds. *)
Lemma search_bounds fuel pivot (a : list A) (left right : nat) :
  (left <= right)%nat ->
  (left <= search comparefn fuel pivot a left right <= right)%nat.
Proof.
  revert left right.
  induction fuel as [| fuel IH]; intros left right Hlr; cbn [search]; [lia |].
  destruct (Nat.ltb_spec left right) as [Hlt | Hge]; [| lia].
  assert (Hmid : (left <= left + (right - left) / 2 < right)%nat).
  { split; [lia |].
    assert ((right - left) / 2 < right - left)%nat
      by (apply Nat.div_lt; lia).
    lia. }
  destruct (nth_error a (left + (right - left) / 2)) as [x |]; [| lia].
  destruct (comparefn pivot x <? 0).
  - specialize (IH left (left + (right - left) / 2)%nat). lia.
  - specialize (IH (S (left + (right - left) / 2)) right). lia.
Qed.

(** A round of insertion takes [a[start]] out and puts it back among the
    elements before it. *)
Lemma insert_pivot_shape (a : list A) (start : nat) (pivot : A) :
  nth_error a start = Some pivot ->
  exists before after,
    a = (before ++ pivot :: after)%list
    /\ List.length before = start
    /\ insert_pivot comparefn a start
       = (firstn (search comparefn start pivot a 0 start) before
            ++ pivot :: skipn (search comparefn start pivot a 0 start) before
            ++ after)%list.
Proof.
  intros Hn.
  destruct (nth_error_split a start Hn) as (before & after & Ha & Hlen).
  exists before, after. split; [exact Ha | split; [exact Hlen |]].
  unfold insert_pivot. rewrite Hn.
  pose proof (search_bounds start pivot a 0 start (Nat.le_0_l _)) as [_ Hk].
  set (k := search comparefn start pivot a 0 start) in *.
  rewrite Ha at 1 2 3.
  assert (T : skipn (S start) (before ++ pivot :: after) = after).
  { replace (S start) with (List.length (before ++ [pivot])%list)
      by (rewrite length_app; cbn; lia).
    change (before ++ pivot :: after)%list with (before ++ [pivot] ++ after)%list.
    rewrite app_assoc, skipn_app, skipn_all, Nat.sub_diag. reflexivity. }
  rewrite T.
  rewrite firstn_app, skipn_app.
  replace (k - List.length before)%nat with 0%nat by lia.
  cbn [firstn skipn]. rewrite app_nil_r.
  rewrite firstn_app, length_skipn.
  replace (start - k - (List.length before - k))%nat with 0%nat by lia.
  cbn [firstn]. rewrite app_nil_r.
  rewrite (firstn_all2 (skipn k before)) by (rewrite length_skipn; lia).
  reflexivity.
Qed.

Lemma insert_pivot_Permutation (a : list A) (start : nat) :
  Permutation (insert_pivot comparefn a start) a.
Proof.
  destruct (nth_error a start) as [pivot |] eqn:Hn.
  - destruct (insert_pivot_shape a start pivot Hn) as (before & after & Ha & _ & E).
    rewrite E. generalize (search comparefn start pivot a 0 start). intros k.
    rewrite Ha.
    rewrite <- (firstn_skipn k before) at 3.
    rewrite <- app_assoc.
    apply Permutation_app_head, Permutation_middle.
  - unfold insert_pivot. rewrite Hn. reflexivity.
Qed.

Lemma BinaryInsertionSort_Permutation rounds (a : list A) (start : nat) :
  Permutation (BinaryInsertionSort comparefn rounds a start) a.
Proof.
  revert a start. induction rounds as [| rounds IH]; intros a start; cbn.
  - reflexivity.
  - rewrite IH. apply insert_pivot_Permutation.
Qed.

Lemma CountAndMakeRun_Permutation (a : list A) :
  Permutation (snd (CountAndMakeRun comparefn a)) a.
Proof.
  destruct a as [| x0 [| x1 rest]]; try reflexivity.
  unfold CountAndMakeRun.
  destruct (comparefn x1 x0 <? 0); [| reflexivity].
  cbn [snd]. rewrite <- Permutation_rev. now rewrite firstn_skipn.
Qed.

(** The model of V8's sort returns a rearrangement of its input, whatever
    the comparison function answers. *)
Lemma v8_sort_Permutation (a : list A) : Permutation (v8_sort comparefn a) a.
Proof.
  unfold v8_sort.
  destruct (List.length a <? 2)%nat; [reflexivity |].
  pose proof (CountAndMakeRun_Permutation a) as H.
  destruct (CountAndMakeRun comparefn a) as [runLength a'].
  rewrite BinaryInsertionSort_Permutation. exact H.
Qed.

End SortRearranges.

Lemma v8_rearranges (tz : Z) : Runtime.rearranges (Runtime.v8 tz).
Proof. intros A cmp a. apply v8_sort_Permutation. Qed.

(** ** The sort orders the array by key

    [cmp] is a comparison function that, on the elements that satisfy [P],
    answers a negative number exactly when the key of its first argument is
    not greater than the key of its second. *)

Section SortOrders.
Import Runtime.
Context {A : Type}.
Variables (cmp : A -> A -> Z) (key : A -> Z) (P : A -> Prop).
Hypothesis cmp_key : forall a b, P a -> P b -> (cmp a b <? 0) = (key a <=? key b).

Local Notation up := (fun x y : A => key x <= key y) (only parsing).
Local Notation down := (fun x y : A => key y <= key x) (only parsing).

Lemma ordered_app (l1 l2 : list A) :
  StronglySorted up l1 -> StronglySorted up l2 ->
  (forall x y, In x l1 -> In y l2 -> key x <= key y) ->
  StronglySorted up (l1 ++ l2).
Proof.
  induction l1 as [| a l1 IH]; intros H1 H2 H; cbn; [exact H2 |].
  apply StronglySorted_inv in H1. destruct H1 as [H1 Ha].
  constructor.
  - apply IH; [exact H1 | exact H2 |]. intros x y Hx Hy. apply H; [now right | exact Hy].
  - apply Forall_app. split; [exact Ha |].
    apply Forall_forall. intros y Hy. apply H; [now left | exact Hy].
Qed.

Lemma ordered_app_inv (l1 l2 : list A) :
  StronglySorted up (l1 ++ l2) ->
  StronglySorted up l1 /\ StronglySorted up l2
  /\ (forall x y, In x l1 -> In y l2 -> key x <= key y).
Proof.
  induction l1 as [| a l1 IH]; cbn; intros H.
  - split; [constructor | split; [exact H |]]. intros x y [].
  - apply StronglySorted_inv in H. destruct H as [H Ha].
    destruct (IH H) as (H1 & H2 & H12).
    apply Forall_app in Ha. destruct Ha as [Ha1 Ha2].
    split; [now constructor | split; [exact H2 |]].
    intros x y [<- | Hx] Hy.
    + rewrite Forall_forall in Ha2. now apply Ha2.
    + now apply H12.
Qed.

Lemma down_rev (l : list A) : StronglySorted down l -> StronglySorted up (rev l).
Proof.
  induction 1 as [| a l Hl IH Ha]; cbn; [constructor |].
  apply ordered_app; [exact IH | repeat constructor |].
  intros x y Hx [<- | []]. apply in_rev in Hx.
  rewrite Forall_forall in Ha. now apply Ha.
Qed.


Lemma cmp_neg (a b : A) : P a -> P b -> (cmp a b <? 0) = true -> key a <= key b.
Proof. intros Ha Hb H. rewrite (cmp_key a b Ha Hb) in H. now apply Z.leb_le. Qed.

Lemma cmp_nonneg (a b : A) : P a -> P b -> (cmp a b <? 0) = false -> key b < key a.
Proof.
  intros Ha Hb H. rewrite (cmp_key a b Ha Hb) in H. apply Z.leb_gt in H. exact H.
Qed.

Lemma run_extends_length d previous (rest : list A) :
  (run_extends cmp d previous rest <= List.length rest)%nat.
Proof.
  revert previous. induction rest as [| current rest IH]; intros previous; cbn; [lia |].
  destruct d, (cmp current previous <? 0); cbn; try lia;
    specialize (IH current); lia.
Qed.

(** A descending run is non-increasing. *)
Lemma run_descending previous (rest : list A) :
  P previous -> Forall P rest ->
  Sorted down (previous :: firstn (run_extends cmp true previous rest) rest).
Proof.
  revert previous. induction rest as [| current rest IH]; intros previous Hp Hr; cbn.
  - repeat constructor.
  - apply Forall_cons_iff in Hr. destruct Hr as [Hc Hr].
    destruct (cmp current previous <? 0) eqn:E; cbn.
    + constructor; [now apply IH |].
      constructor. now apply cmp_neg.
    + repeat constructor.
Qed.

(** An ascending run is increasing. *)
Lemma run_ascending previous (rest : list A) :
  P previous -> Forall P rest ->
  Sorted up (previous :: firstn (run_extends cmp false previous rest) rest).
Proof.
  revert previous. induction rest as [| current rest IH]; intros previous Hp Hr; cbn.
  - repeat constructor.
  - apply Forall_cons_iff in Hr. destruct Hr as [Hc Hr].
    destruct (cmp current previous <? 0) eqn:E; cbn.
    + repeat constructor.
    + constructor; [now apply IH |].
      constructor. apply Z.lt_le_incl. now apply cmp_nonneg.
Qed.

Lemma up_transitive : Relations_1.Transitive up.
Proof. intros x y z. cbn. lia. Qed.

Lemma down_transitive : Relations_1.Transitive down.
Proof. intros x y z. cbn. lia. Qed.

(** [CountAndMakeRun] leaves a run in non-decreasing order at the front. *)
Lemma CountAndMakeRun_ordered (a : list A) :
  Forall P a ->
  (fst (CountAndMakeRun cmp a) <= List.length a)%nat
  /\ StronglySorted up (firstn (fst (CountAndMakeRun cmp a)) (snd (CountAndMakeRun cmp a))).
Proof.
  intros Ha.
  destruct a as [| x0 [| x1 rest]].
  - cbn. split; [lia | constructor].
  - cbn. split; [lia | repeat constructor].
  - apply Forall_cons_iff in Ha. destruct Ha as [H0 Ha].
    apply Forall_cons_iff in Ha. destruct Ha as [H1 Hr].
    unfold CountAndMakeRun.
    pose proof (run_extends_length (cmp x1 x0 <? 0) x1 rest) as Hlen.
    destruct (cmp x1 x0 <? 0) eqn:E; cbn [fst snd].
    + split; [cbn; lia |].
      rewrite firstn_app.
      rewrite length_rev, length_firstn.
      replace (2 + run_extends cmp true x1 rest
               - Nat.min (2 + run_extends cmp true x1 rest)
                         (List.length (x0 :: x1 :: rest)))%nat
        with 0%nat by (cbn [List.length]; lia).
      cbn [firstn]. rewrite app_nil_r.
      rewrite firstn_all2 by (rewrite length_rev, length_firstn; cbn [List.length]; lia).
      apply down_rev.
      apply Sorted_StronglySorted; [exact down_transitive |].
      cbn [Nat.add firstn].
      constructor; [now apply run_descending |].
      constructor. now apply cmp_neg.
    + split; [cbn; lia |].
      apply Sorted_StronglySorted; [exact up_transitive |].
      cbn [Nat.add firstn].
      constructor; [now apply run_ascending |].
      constructor. apply Z.lt_le_incl. now apply cmp_nonneg.
Qed.


Lemma ordered_skipn n (l : list A) : StronglySorted up l -> StronglySorted up (skipn n l).
Proof.
  intros H. rewrite <- (firstn_skipn n l) in H.
  now apply ordered_app_inv in H.
Qed.

(** The search finds a place that splits the ordered elements before the
    pivot in those not above it and those not below it. *)
Lemma search_splits fuel pivot (before after : list A) (left right : nat) :
  StronglySorted up before -> Forall P before -> P pivot ->
  (left <= right <= List.length before)%nat ->
  (right - left <= fuel)%nat ->
  Forall (fun x => key x <= key pivot) (firstn left before) ->
  Forall (fun x => key pivot <= key x) (skipn right before) ->
  Forall (fun x => key x <= key pivot)
    (firstn (search cmp fuel pivot (before ++ pivot :: after) left right) before)
  /\ Forall (fun x => key pivot <= key x)
       (skipn (search cmp fuel pivot (before ++ pivot :: after) left right) before).
Proof.
  intros Hs Hb Hp. revert left right.
  induction fuel as [| fuel IH]; intros left right Hlr Hfuel Hl Hr; cbn [search].
  - replace right with left in Hr by lia. now split.
  - destruct (Nat.ltb_spec left right) as [Hlt | Hge];
      [| replace right with left in Hr by lia; now split].
    set (mid := (left + (right - left) / 2)%nat).
    assert (Hmid : (left <= mid < right)%nat).
    { subst mid. split; [lia |].
      assert ((right - left) / 2 < right - left)%nat by (apply Nat.div_lt; lia).
      lia. }
    rewrite nth_error_app1 by lia.
    destruct (nth_error before mid) as [x |] eqn:Hx;
      [| apply nth_error_None in Hx; lia].
    destruct (nth_error_split before mid Hx) as (l1 & l2 & Hbefore & Hl1).
    assert (Px : P x).
    { rewrite Forall_forall in Hb. apply Hb. rewrite Hbefore.
      apply in_or_app. right. now left. }
    pose proof Hs as Hs'. rewrite Hbefore in Hs'.
    apply ordered_app_inv in Hs'. destruct Hs' as (_ & Hs2 & H12).
    apply StronglySorted_inv in Hs2. destruct Hs2 as [_ Hx2].
    destruct (cmp pivot x <? 0) eqn:E.
    + apply IH; [lia | lia | exact Hl |].
      pose proof (cmp_neg pivot x Hp Px E) as Hle.
      rewrite Hbefore, skipn_app, skipn_all2 by lia.
      replace (mid - List.length l1)%nat with 0%nat by lia.
      cbn [app skipn]. constructor; [exact Hle |].
      apply Forall_impl with (2 := Hx2). cbn. intros y Hy. lia.
    + apply IH; [lia | lia | | exact Hr].
      pose proof (cmp_nonneg pivot x Hp Px E) as Hlt'.
      rewrite Hbefore.
      replace (S mid) with (List.length (l1 ++ [x])%list)
        by (rewrite length_app; cbn; lia).
      change (l1 ++ x :: l2)%list with (l1 ++ [x] ++ l2)%list.
      rewrite app_assoc, firstn_app, firstn_all, Nat.sub_diag.
      cbn [firstn]. rewrite app_nil_r.
      apply Forall_app. split; [| constructor; [lia | constructor]].
      apply Forall_forall. intros y Hy.
      specialize (H12 y x Hy (or_introl eq_refl)). lia.
Qed.

(** A round of insertion extends the ordered front by one element. *)
Lemma insert_pivot_ordered (a : list A) (start : nat) :
  Forall P a -> (start < List.length a)%nat ->
  StronglySorted up (firstn start a) ->
  StronglySorted up (firstn (S start) (insert_pivot cmp a start)).
Proof.
  intros Ha Hlt Hs.
  destruct (nth_error a start) as [pivot |] eqn:Hn;
    [| apply nth_error_None in Hn; lia].
  destruct (insert_pivot_shape cmp a start pivot Hn) as (before & after & Ea & Hlen & E).
  rewrite E. clear E.
  assert (Hfirst : firstn start a = before).
  { rewrite Ea, <- Hlen, firstn_app, firstn_all, Nat.sub_diag. cbn. apply app_nil_r. }
  rewrite Hfirst in Hs.
  assert (Hb : Forall P before /\ P pivot).
  { rewrite Ea in Ha. apply Forall_app in Ha. destruct Ha as [Hb Ha].
    apply Forall_cons_iff in Ha. now split. }
  destruct Hb as [Hb Hp].
  pose proof (search_bounds cmp start pivot a 0 start (Nat.le_0_l _)) as [_ Hk].
  assert (Hsplit := search_splits start pivot before after 0 start Hs Hb Hp).
  rewrite <- Ea in Hsplit.
  destruct Hsplit as [Hlow Hhigh];
    [lia | lia | constructor | rewrite <- Hlen, skipn_all; constructor |].
  set (k := search cmp start pivot a 0 start) in *.
  replace (S start)
    with (List.length (firstn k before ++ pivot :: skipn k before)%list).
  2:{ rewrite length_app. cbn [List.length]. rewrite length_firstn, length_skipn. lia. }
  change (firstn k before ++ pivot :: skipn k before ++ after)%list
    with (firstn k before ++ (pivot :: skipn k before) ++ after)%list.
  rewrite app_assoc, firstn_app, firstn_all, Nat.sub_diag.
  cbn [firstn]. rewrite app_nil_r.
  rewrite <- (firstn_skipn k before) in Hs.
  apply ordered_app_inv in Hs. destruct Hs as (Hs1 & Hs2 & _).
  apply ordered_app; [exact Hs1 | constructor; [exact Hs2 | exact Hhigh] |].
  intros x y Hx [<- | Hy].
  - rewrite Forall_forall in Hlow. now apply Hlow.
  - rewrite Forall_forall in Hlow, Hhigh.
    specialize (Hlow x Hx). specialize (Hhigh y Hy). lia.
Qed.

Lemma insert_pivot_length (a : list A) (start : nat) :
  List.length (insert_pivot cmp a start) = List.length a.
Proof. apply Permutation_length, insert_pivot_Permutation. Qed.

Lemma BinaryInsertionSort_ordered rounds (a : list A) (start : nat) :
  Forall P a -> (start + rounds = List.length a)%nat ->
  StronglySorted up (firstn start a) ->
  StronglySorted up (BinaryInsertionSort cmp rounds a start).
Proof.
  revert a start. induction rounds as [| rounds IH]; intros a start Ha Hlen Hs; cbn.
  - rewrite firstn_all2 in Hs by lia. exact Hs.
  - apply IH.
    + apply (Permutation_Forall (Permutation_sym (insert_pivot_Permutation cmp a start))).
      exact Ha.
    + rewrite insert_pivot_length. lia.
    + apply insert_pivot_ordered; [exact Ha | lia | exact Hs].
Qed.

(** Given a comparison function that says "before" exactly when the key is
    not greater, the sort puts the array in non-decreasing order of keys. *)
Lemma v8_sort_ordered (a : list A) :
  Forall P a -> StronglySorted up (v8_sort cmp a).
Proof.
  intros Ha. unfold v8_sort.
  destruct (Nat.ltb_spec (List.length a) 2) as [Hshort | Hlong].
  - destruct a as [| x [| y a]]; [constructor | repeat constructor | cbn in Hshort; lia].
  - destruct (CountAndMakeRun_ordered a Ha) as [Hrun Hs].
    pose proof (CountAndMakeRun_Permutation cmp a) as Hp.
    destruct (CountAndMakeRun cmp a) as [runLength a']. cbn [fst snd] in *.
    apply BinaryInsertionSort_ordered.
    + apply (Permutation_Forall (Permutation_sym Hp)). exact Ha.
    + rewrite (Permutation_length Hp). lia.
    + exact Hs.
Qed.

End SortOrders.

(* ================================================================== *)
(** * The table: the claims *)

Section TableClaims.
Import Runtime RecommendationsTable.

Lemma toLowerCase_option (v : string) : In v filter_options -> toLowerCase v = v.
Proof.
  intros [<- | [<- | [<- | [<- | []]]]]; reflexivity.
Qed.

Lemma keeps_asked_for (s : state) (v : string) (item : recommendation) :
  In v filter_options ->
  keeps (setFilterSentiment v s) item = asked_for v item.
Proof.
  intros Hv. unfold keeps, asked_for, same_ignoring_case, setFilterSentiment.
  cbn [filterSentiment]. rewrite (toLowerCase_option v Hv).
  destruct (String.eqb v "all"); reflexivity.
Qed.

Lemma filteredData_asked_for (s : state) (v : string) (data : list recommendation) :
  In v filter_options ->
  filteredData (setFilterSentiment v s) data = filter (asked_for v) data.
Proof.
  intros Hv. unfold filteredData. apply filter_ext.
  intros item. now apply keeps_asked_for.
Qed.

(** C4. For a filter value [v] among the options of the select, the rows
    shown are exactly (as a rearrangement, so with the same multiplicity)
    the rows of [data] whose sentiment equals [v] when case is ignored, and
    all the rows when [v] is [all]; setting the filter leaves the sort field
    and the sort direction as they were.  This holds for every engine whose
    sort rearranges its input. *)
Theorem filter_keeps_matching_rows
    (e : engine) (s : state) (data : list recommendation) (v : string) :
  rearranges e ->
  In v filter_options ->
  Permutation (sortedData e (setFilterSentiment v s) data) (filter (asked_for v) data)
  /\ (forall item,
        In item (sortedData e (setFilterSentiment v s) data)
        <-> In item data
            /\ (v = "all" \/ same_ignoring_case (sentiment item) v = true))
  /\ (v = "all" -> Permutation (sortedData e (setFilterSentiment v s) data) data)
  /\ sortField (setFilterSentiment v s) = sortField s
  /\ sortDirection (setFilterSentiment v s) = sortDirection s.
Proof.
  intros He Hv.
  assert (P : Permutation (sortedData e (setFilterSentiment v s) data)
                          (filter (asked_for v) data)).
  { unfold sortedData. rewrite (He _ _ _). now rewrite filteredData_asked_for. }
  split; [exact P | split; [| split; [| split; reflexivity]]].
  - intros item. split.
    + intros Hin. apply (Permutation_in _ P) in Hin.
      apply filter_In in Hin. destruct Hin as [Hin Hk]. split; [exact Hin |].
      unfold asked_for in Hk. apply orb_true_iff in Hk.
      destruct Hk as [Hk | Hk]; [left; now apply String.eqb_eq | now right].
    + intros [Hin Hk]. apply (Permutation_in _ (Permutation_sym P)).
      apply filter_In. split; [exact Hin |].
      unfold asked_for. apply orb_true_iff.
      destruct Hk as [-> | Hk]; [now left | now right].
  - intros ->. rewrite P.
    replace (filter (asked_for "all") data) with data; [reflexivity |].
    symmetry. apply forallb_filter_id.
    apply forallb_forall. intros item _. reflexivity.
Qed.

Lemma filter_keeps_matching_rows_witness :
  Permutation
    (sortedData (v8 0) (setFilterSentiment "bullish" initial)
       [Rows.sep_12; Rows.sep_1; Rows.sep_2])
    [Rows.sep_1; Rows.sep_2].
Proof.
  exact (proj1 (filter_keeps_matching_rows (v8 0) initial
                  [Rows.sep_12; Rows.sep_1; Rows.sep_2] "bullish"
                  (v8_rearranges 0) (or_intror (or_introl eq_refl)))).
Defined.

(** The comparison function never answers 0: two rows neither of which is
    less than the other are each said to come before the other. *)
Lemma comparefn_ties (e : engine) (s : state) (a b : recommendation) :
  less e (sortField s) a b = false ->
  less e (sortField s) b a = false ->
  comparefn e s a b = -1 /\ comparefn e s b a = -1.
Proof.
  intros Hab Hba. unfold comparefn.
  destruct (sortDirection s); rewrite Hab, Hba; split; reflexivity.
Qed.

(** Two rows neither of which is less than the other are swapped. *)
Lemma tied_pair_is_swapped (e : engine) (s : state) (a b : recommendation) :
  less e (sortField s) a b = false ->
  less e (sortField s) b a = false ->
  v8_sort (comparefn e s) [a; b] = [b; a].
Proof.
  intros Hab Hba.
  destruct (comparefn_ties e s a b Hab Hba) as [_ E].
  unfold v8_sort, CountAndMakeRun. cbn [List.length Nat.ltb Nat.leb run_extends].
  rewrite E. reflexivity.
Qed.

(** C5, on the code. Sorted by risk, descending (one click on the Risk
    header), the two rows of the mock service, which have the same risk
    score, come out in the reverse of their order in the data. *)
Theorem equal_risk_rows_are_reversed (tz : Z) :
  riskScore Rows.mock_0912 = riskScore Rows.mock_0911
  /\ filteredData (handleSort riskScore_field initial) [Rows.mock_0912; Rows.mock_0911]
     = [Rows.mock_0912; Rows.mock_0911]
  /\ sortedData (v8 tz) (handleSort riskScore_field initial)
       [Rows.mock_0912; Rows.mock_0911]
     = [Rows.mock_0911; Rows.mock_0912].
Proof. split; [| split]; reflexivity. Qed.

(** C6, as stated: calling [handleSort(f)] twice restores the direction.
    From the initial state (date, descending) two clicks on Risk end
    ascending. *)
Lemma toggle_twice_changes_direction :
  sortDirection (handleSort riskScore_field (handleSort riskScore_field initial))
  <> sortDirection initial.
Proof. discriminate. Qed.

(** C6, amended. When [f] is the current sort field, calling
    [handleSort(f)] twice restores the state, so the direction; when [f] is
    another field, the first call sets the sort field to [f] and the
    direction to descending, and the second call turns it to ascending. *)
Theorem handleSort_twice (f : field) (s : state) :
  (sortField s = f -> handleSort f (handleSort f s) = s)
  /\ (sortField s <> f ->
      handleSort f s
      = {| sortField := f; sortDirection := desc; filterSentiment := filterSentiment s |}
      /\ handleSort f (handleSort f s)
         = {| sortField := f; sortDirection := asc; filterSentiment := filterSentiment s |}).
Proof.
  destruct s as [g d v]. cbn [sortField filterSentiment]. split.
  - intros ->. destruct f, d; reflexivity.
  - intros Hne. destruct g, f; try congruence; split; reflexivity.
Qed.

Lemma handleSort_twice_witness :
  handleSort date_field (handleSort date_field initial) = initial
  /\ handleSort riskScore_field (handleSort riskScore_field initial)
     = {| sortField := riskScore_field; sortDirection := asc; filterSentiment := "all" |}.
Proof.
  split.
  - apply (proj1 (handleSort_twice date_field initial)). reflexivity.
  - apply (proj2 (handleSort_twice riskScore_field initial)). discriminate.
Defined.

End TableClaims.

Section DateSort.
Import Runtime RecommendationsTable.

(** The sort on three elements when the second belongs before the first
    and the third between them. *)
Lemma v8_sort_three {A : Type} (cmp : A -> A -> Z) (x y z : A) :
  cmp y x < 0 -> 0 <= cmp z y -> cmp z x < 0 ->
  v8_sort cmp [x; y; z] = [y; z; x].
Proof.
  intros Hyx Hzy Hzx.
  apply Z.ltb_lt in Hyx, Hzx. apply Z.ltb_ge in Hzy.
  unfold v8_sort, CountAndMakeRun. cbn [List.length Nat.ltb Nat.leb run_extends].
  rewrite Hyx. cbn [run_extends]. rewrite Hzy.
  cbn [Nat.add firstn skipn rev app Nat.sub List.length BinaryInsertionSort].
  unfold insert_pivot. cbn [nth_error search Nat.ltb Nat.leb Nat.sub Nat.add].
  change ((2 / 2)%nat) with 1%nat. cbn [Nat.add nth_error].
  rewrite Hzx. cbn [search Nat.ltb Nat.leb Nat.sub Nat.add].
  change ((1 / 2)%nat) with 0%nat. cbn [Nat.add nth_error].
  rewrite Hzy. reflexivity.
Qed.

Lemma Date_parse_sep_12 offset : Date_parse offset "2025-09-12" = Some 1757635200000.
Proof. reflexivity. Qed.

Lemma Date_parse_sep_1 offset :
  Date_parse offset "2025-09-1"
  = Some (20332 * msPerDay + offset (20332 * msPerDay) * msPerMinute).
Proof. reflexivity. Qed.

Lemma Date_parse_sep_2 offset :
  Date_parse offset "2025-09-2"
  = Some (20333 * msPerDay + offset (20333 * msPerDay) * msPerMinute).
Proof. reflexivity. Qed.

(** On two rows with valid dates the comparison function of the date
    column compares the time values. *)
Lemma comparefn_date (read : string -> option Z) (d : direction) (v : string)
      (a b : recommendation) (ta tb : Z) :
  read (date a) = Some ta ->
  read (date b) = Some tb ->
  comparefn (v8_reading read) (mkState date_field d v) a b
  = match d with
    | asc => if tb <? ta then 1 else -1
    | desc => if ta <? tb then 1 else -1
    end.
Proof.
  intros Ha Hb. unfold comparefn, less.
  cbn [sortDirection sortField Date_value v8_reading].
  rewrite Ha, Hb. reflexivity.
Qed.

Lemma comparefn_date_asc_key (read : string -> option Z) (v : string)
      (a b : recommendation) :
  valid_date read a -> valid_date read b ->
  (comparefn (v8_reading read) (mkState date_field asc v) a b <? 0)
  = (time_of read a <=? time_of read b).
Proof.
  unfold valid_date, time_of. intros Ha Hb.
  destruct (read (date a)) as [ta |] eqn:Ea; [| congruence].
  destruct (read (date b)) as [tb |] eqn:Eb; [| congruence].
  rewrite (comparefn_date read asc v a b ta tb Ea Eb).
  destruct (Z.ltb_spec tb ta), (Z.leb_spec ta tb); try lia; reflexivity.
Qed.

Lemma comparefn_date_desc_key (read : string -> option Z) (v : string)
      (a b : recommendation) :
  valid_date read a -> valid_date read b ->
  (comparefn (v8_reading read) (mkState date_field desc v) a b <? 0)
  = (- time_of read a <=? - time_of read b).
Proof.
  unfold valid_date, time_of. intros Ha Hb.
  destruct (read (date a)) as [ta |] eqn:Ea; [| congruence].
  destruct (read (date b)) as [tb |] eqn:Eb; [| congruence].
  rewrite (comparefn_date read desc v a b ta tb Ea Eb).
  destruct (Z.ltb_spec ta tb), (Z.leb_spec (- ta) (- tb)); try lia; reflexivity.
Qed.

Lemma filteredData_valid (read : string -> option Z) (s : state)
      (data : list recommendation) :
  Forall (valid_date read) data -> Forall (valid_date read) (filteredData s data).
Proof.
  rewrite !Forall_forall. intros H item Hin.
  apply filter_In in Hin. now apply H.
Qed.

(** Rows with valid dates are sorted by the time values of their dates,
    whatever the reading of dates. *)
Lemma sortedData_by_date (read : string -> option Z) (v : string)
      (data : list recommendation) :
  Forall (valid_date read) data ->
  chronological read (sortedData (v8_reading read) (mkState date_field asc v) data)
  /\ latest_first read (sortedData (v8_reading read) (mkState date_field desc v) data).
Proof.
  intros Hd. split.
  - apply (v8_sort_ordered _ (time_of read) (valid_date read)
             (comparefn_date_asc_key read v)).
    now apply filteredData_valid.
  - apply (v8_sort_ordered _ (fun x => - time_of read x) (valid_date read)
             (comparefn_date_desc_key read v)).
    now apply filteredData_valid.
Qed.

(** C7. The sort by date compares the time values of the dates, not the
    date strings.  On the rows dated 2025-09-12, 2025-09-1 and 2025-09-2,
    in this order, the ascending sort by date gives 2025-09-1, 2025-09-2,
    2025-09-12: the order of their time values, which is not the order of
    the strings (as strings, 2025-09-12 is before 2025-09-2).  This holds
    in every time zone: [offset t] is the number of minutes local time is
    behind UTC at the local time [t], less than a day and differing by
    less than a day between any two times.  And for every reading of dates
    (the engine's own, whatever strings it reads and however), on every
    collection of rows whose dates have a time value the ascending sort by
    date puts the rows in the order of their time values, the descending
    sort in the reverse order. *)
Theorem date_sort_is_chronological (offset : Z -> Z) :
  (forall t, -1440 < offset t < 1440) ->
  (forall t u, offset t - offset u < 1440) ->
  sortedData (v8_zone offset) (mkState date_field asc "all")
    [Rows.sep_12; Rows.sep_1; Rows.sep_2]
  = [Rows.sep_1; Rows.sep_2; Rows.sep_12]
  /\ time_of (Date_parse offset) Rows.sep_1 < time_of (Date_parse offset) Rows.sep_2
     < time_of (Date_parse offset) Rows.sep_12
  /\ str_lt (date Rows.sep_12) (date Rows.sep_2) = true
  /\ (forall (read : string -> option Z) v data,
        Forall (valid_date read) data ->
        chronological read
          (sortedData (v8_reading read) (mkState date_field asc v) data)
        /\ latest_first read
             (sortedData (v8_reading read) (mkState date_field desc v) data)).
Proof.
  intros Hbound Hdiff.
  pose proof (comparefn_date (Date_parse offset) asc "all" Rows.sep_1 Rows.sep_12 _ _
                (Date_parse_sep_1 offset) (Date_parse_sep_12 offset)) as C1.
  pose proof (comparefn_date (Date_parse offset) asc "all" Rows.sep_2 Rows.sep_1 _ _
                (Date_parse_sep_2 offset) (Date_parse_sep_1 offset)) as C2.
  pose proof (comparefn_date (Date_parse offset) asc "all" Rows.sep_2 Rows.sep_12 _ _
                (Date_parse_sep_2 offset) (Date_parse_sep_12 offset)) as C3.
  cbv beta iota in C1, C2, C3. unfold msPerDay, msPerMinute in C1, C2, C3.
  pose proof (Hbound (20332 * 86400000)) as B1.
  pose proof (Hbound (20333 * 86400000)) as B2.
  pose proof (Hdiff (20332 * 86400000) (20333 * 86400000)) as D12.
  split; [| split; [| split]].
  - unfold sortedData.
    change (filteredData (mkState date_field asc "all")
              [Rows.sep_12; Rows.sep_1; Rows.sep_2])
      with [Rows.sep_12; Rows.sep_1; Rows.sep_2].
    change (array_sort (v8_zone offset) recommendation ?c ?l) with (v8_sort c l).
    change (v8_zone offset) with (v8_reading (Date_parse offset)).
    apply v8_sort_three; [rewrite C1 | rewrite C2 | rewrite C3].
    + destruct (Z.ltb_spec 1757635200000
                  (20332 * 86400000 + offset (20332 * 86400000) * 60000)); lia.
    + destruct (Z.ltb_spec (20332 * 86400000 + offset (20332 * 86400000) * 60000)
                           (20333 * 86400000 + offset (20333 * 86400000) * 60000)); lia.
    + destruct (Z.ltb_spec 1757635200000
                  (20333 * 86400000 + offset (20333 * 86400000) * 60000)); lia.
  - unfold time_of.
    change (date Rows.sep_1) with "2025-09-1".
    change (date Rows.sep_2) with "2025-09-2".
    change (date Rows.sep_12) with "2025-09-12".
    rewrite Date_parse_sep_1, Date_parse_sep_2, Date_parse_sep_12.
    unfold msPerDay, msPerMinute. lia.
  - reflexivity.
  - intros read v data. apply sortedData_by_date.
Qed.

Lemma date_sort_is_chronological_witness :
  sortedData (v8 300) (mkState date_field asc "all")
    [Rows.sep_12; Rows.sep_1; Rows.sep_2]
  = [Rows.sep_1; Rows.sep_2; Rows.sep_12].
Proof.
  apply (date_sort_is_chronological (fun _ => 300)); intros; lia.
Defined.

End DateSort.

Section Badges.
Import RecommendationsTable.

(** C8. In the table and in the analysis panel a risk score of at most 3
    is labelled Low, one from 4 to 6 Medium, one above 6 High; 3 is Low, 4
    and 6 are Medium, 7 is High.  The badge of the table, the label and the
    colour of the panel and the bars of its gauge all follow the same three
    bands. *)
Theorem risk_bands (score : Z) :
  (score <= 3 ->
     getRiskBadge_label score = "Low" /\ AIAnalysis.getRiskLabel score = "Low Risk")
  /\ (4 <= score <= 6 ->
     getRiskBadge_label score = "Medium" /\ AIAnalysis.getRiskLabel score = "Medium Risk")
  /\ (6 < score ->
     getRiskBadge_label score = "High" /\ AIAnalysis.getRiskLabel score = "High Risk")
  /\ map getRiskBadge_label [3; 4; 6; 7] = ["Low"; "Medium"; "Medium"; "High"]
  /\ map AIAnalysis.getRiskLabel [3; 4; 6; 7]
     = ["Low Risk"; "Medium Risk"; "Medium Risk"; "High Risk"]
  /\ getRiskBadge_label score = band_name (risk_band score)
  /\ AIAnalysis.getRiskLabel score = band_name (risk_band score) ++ " Risk"
  /\ getRiskBadge_color score
     = match risk_band score with
       | Low => "bg-green-600/20 text-green-400 border-green-600/30"
       | Medium => "bg-yellow-600/20 text-yellow-400 border-yellow-600/30"
       | High => "bg-red-600/20 text-red-400 border-red-600/30"
       end
  /\ AIAnalysis.getRiskColor score
     = match risk_band score with
       | Low => "text-green-400 bg-green-600/20"
       | Medium => "text-yellow-400 bg-yellow-600/20"
       | High => "text-red-400 bg-red-600/20"
       end
  /\ (forall i, i <= score ->
        AIAnalysis.gauge_bar score i
        = match risk_band score with
          | Low => "bg-green-400"
          | Medium => "bg-yellow-400"
          | High => "bg-red-400"
          end).
Proof.
  unfold getRiskBadge_label, getRiskBadge_color, AIAnalysis.getRiskLabel,
    AIAnalysis.getRiskColor, AIAnalysis.gauge_bar, risk_band.
  repeat match goal with
         | |- _ /\ _ => split
         end.
  - intros H.
    destruct (Z.ltb_spec 6 score); [lia |]. destruct (Z.ltb_spec 3 score); [lia |].
    destruct (Z.leb_spec score 3); [| lia]. split; reflexivity.
  - intros H.
    destruct (Z.ltb_spec 6 score); [lia |]. destruct (Z.ltb_spec 3 score); [| lia].
    destruct (Z.leb_spec score 3); [lia |]. destruct (Z.leb_spec score 6); [| lia].
    split; reflexivity.
  - intros H.
    destruct (Z.ltb_spec 6 score); [| lia].
    destruct (Z.leb_spec score 3); [lia |]. destruct (Z.leb_spec score 6); [lia |].
    split; reflexivity.
  - reflexivity.
  - reflexivity.
  - destruct (Z.ltb_spec 6 score), (Z.ltb_spec 3 score), (Z.leb_spec score 3),
      (Z.leb_spec score 6); try lia; reflexivity.
  - destruct (Z.leb_spec score 3), (Z.leb_spec score 6); reflexivity.
  - destruct (Z.ltb_spec 6 score), (Z.ltb_spec 3 score), (Z.leb_spec score 3),
      (Z.leb_spec score 6); try lia; reflexivity.
  - destruct (Z.leb_spec score 3), (Z.leb_spec score 6); reflexivity.
  - intros i Hi. destruct (Z.leb_spec i score); [| lia].
    destruct (Z.leb_spec score 3), (Z.leb_spec score 6); reflexivity.
Qed.

Lemma risk_bands_witness :
  (getRiskBadge_label 2 = "Low" /\ AIAnalysis.getRiskLabel 2 = "Low Risk")
  /\ (getRiskBadge_label 5 = "Medium" /\ AIAnalysis.getRiskLabel 5 = "Medium Risk")
  /\ (getRiskBadge_label 9 = "High" /\ AIAnalysis.getRiskLabel 9 = "High Risk")
  /\ AIAnalysis.gauge_bar 9 4 = "bg-red-400".
Proof.
  split; [| split; [| split]].
  - apply (proj1 (risk_bands 2)). lia.
  - apply (proj1 (proj2 (risk_bands 5))). lia.
  - apply (proj1 (proj2 (proj2 (risk_bands 9)))). lia.
  - apply (proj2 (proj2 (proj2 (proj2 (proj2 (proj2 (proj2 (proj2
             (proj2 (risk_bands 9)))))))))). lia.
Defined.

(** C9. The accuracy cell is green when the accuracy is at least 95,
    yellow when it is at least 90 and below 95, red when it is below 90;
    94.99 is yellow and 95.00 is green.  The accuracy is a binary64 number
    and the comparisons are those of the code. *)
Theorem accuracy_tiers (accuracy : float) :
  (PrimFloat.leb 95 accuracy = true -> accuracy_class accuracy = "text-green-400")
  /\ (PrimFloat.leb 90 accuracy = true -> PrimFloat.ltb accuracy 95 = true ->
      accuracy_class accuracy = "text-yellow-400")
  /\ (PrimFloat.ltb accuracy 90 = true -> accuracy_class accuracy = "text-red-400")
  /\ accuracy_class 94.99 = "text-yellow-400"
  /\ accuracy_class 95.00 = "text-green-400".
Proof.
  unfold accuracy_class. split; [| split; [| split; [| split]]].
  - intros ->. reflexivity.
  - intros H90 H95. rewrite (ltb_not_leb _ _ H95), H90. reflexivity.
  - intros H90.
    rewrite (ltb_not_leb _ _ (below_90_below_95 _ H90)), (ltb_not_leb _ _ H90).
    reflexivity.
  - reflexivity.
  - reflexivity.
Qed.

Lemma accuracy_tiers_witness :
  accuracy_class 99.6 = "text-green-400"
  /\ accuracy_class 92.5 = "text-yellow-400"
  /\ accuracy_class 89.99 = "text-red-400".
Proof.
  split; [| split].
  - apply (proj1 (accuracy_tiers 99.6)). reflexivity.
  - apply (proj1 (proj2 (accuracy_tiers 92.5))); reflexivity.
  - apply (proj1 (proj2 (proj2 (accuracy_tiers 89.99)))). reflexivity.
Defined.

End Badges.

(* ================================================================== *)
(** * Further properties of the gateway and the refresh cycle *)

Section GatewayBehaviour.
Import Js Effects DatabaseService App.
Local Open Scope async_scope.

Ltac run_failure net url :=
  unfold trace, try_catch, bind, console_log, console_error, fetch,
    check_ok, lift, throw, ret, failure_of;
  destruct (net url) as [? | r]; cbn -[ok]; [reflexivity |];
  destruct (ok r); cbn; [| reflexivity];
  destruct (json r) as [? | ?]; [reflexivity | discriminate].

Lemma getLatestStockData_failure_trace net k :
  failure_of (net latest_url) = Some k ->
  trace getLatestStockData net = [ConsoleLog; Get latest_url; ConsoleError].
Proof. unfold getLatestStockData. run_failure net latest_url. Qed.

Lemma getHistoricalData_failure_trace net days k :
  failure_of (net historical_url) = Some k ->
  trace (getHistoricalData days) net = [ConsoleLog; Get historical_url; ConsoleError].
Proof. unfold getHistoricalData. run_failure net historical_url. Qed.

Lemma getAllRecommendations_failure_trace net k :
  failure_of (net recommendations_url) = Some k ->
  trace getAllRecommendations net
  = [ConsoleLog; Get recommendations_url; ConsoleError].
Proof. unfold getAllRecommendations. run_failure net recommendations_url. Qed.

Lemma getPerformanceMetrics_failure_trace net k :
  failure_of (net metrics_url) = Some k ->
  trace getPerformanceMetrics net = [ConsoleLog; Get metrics_url; ConsoleError].
Proof. unfold getPerformanceMetrics. run_failure net metrics_url. Qed.

(** X1. Whatever the network does, each gateway operation sends exactly
    one request, to its own URL: a failure is never retried.  When the
    request fails, the operation does three things and no more: it logs its
    start, sends the request and logs the error. *)
Theorem one_request_no_retry (net : network) (days : value) :
  (requests (trace getLatestStockData net) = [latest_url]
   /\ requests (trace (getHistoricalData days) net) = [historical_url]
   /\ requests (trace getAllRecommendations net) = [recommendations_url]
   /\ requests (trace getPerformanceMetrics net) = [metrics_url])
  /\ (forall k, failure_of (net latest_url) = Some k ->
        trace getLatestStockData net = [ConsoleLog; Get latest_url; ConsoleError])
  /\ (forall k, failure_of (net historical_url) = Some k ->
        trace (getHistoricalData days) net
        = [ConsoleLog; Get historical_url; ConsoleError])
  /\ (forall k, failure_of (net recommendations_url) = Some k ->
        trace getAllRecommendations net
        = [ConsoleLog; Get recommendations_url; ConsoleError])
  /\ (forall k, failure_of (net metrics_url) = Some k ->
        trace getPerformanceMetrics net = [ConsoleLog; Get metrics_url; ConsoleError]).
Proof.
  split; [split; [| split; [| split]] | split; [| split; [| split]]].
  - apply getLatestStockData_requests.
  - apply getHistoricalData_requests.
  - apply getAllRecommendations_requests.
  - apply getPerformanceMetrics_requests.
  - apply getLatestStockData_failure_trace.
  - apply getHistoricalData_failure_trace.
  - apply getAllRecommendations_failure_trace.
  - apply getPerformanceMetrics_failure_trace.
Qed.

Lemma one_request_no_retry_witness :
  trace getLatestStockData Samples.all_down = [ConsoleLog; Get latest_url; ConsoleError]
  /\ trace (getHistoricalData Undefined) Samples.all_down
     = [ConsoleLog; Get historical_url; ConsoleError]
  /\ trace getAllRecommendations Samples.all_down
     = [ConsoleLog; Get recommendations_url; ConsoleError]
  /\ trace getPerformanceMetrics Samples.all_down
     = [ConsoleLog; Get metrics_url; ConsoleError].
Proof.
  destruct (one_request_no_retry Samples.all_down Undefined)
    as (_ & Hl & Hh & Hr & Hm).
  split; [| split; [| split]].
  - apply (Hl TransportFailure). reflexivity.
  - apply (Hh StatusFailure). reflexivity.
  - apply (Hr ParseFailure). reflexivity.
  - apply (Hm StatusFailure). reflexivity.
Defined.

Ltac run_body net url Hn Hok Hj :=
  unfold promise, try_catch, bind, console_log, console_error, fetch,
    check_ok, lift, throw, ret;
  rewrite Hn; cbn -[ok]; rewrite Hok, Hj; cbn.

Lemma getHistoricalData_success net days r data :
  net historical_url = Responded r -> ok r = true -> json r = inr data ->
  data <> Null -> data <> Undefined ->
  promise (getHistoricalData days) net = Fulfilled data.
Proof.
  intros Hn Hok Hj H1 H2. unfold getHistoricalData.
  run_body net historical_url Hn Hok Hj.
  destruct data; try congruence; reflexivity.
Qed.

Lemma getPerformanceMetrics_success net r data :
  net metrics_url = Responded r -> ok r = true -> json r = inr data ->
  promise getPerformanceMetrics net = Fulfilled data.
Proof.
  intros Hn Hok Hj. unfold getPerformanceMetrics.
  run_body net metrics_url Hn Hok Hj. reflexivity.
Qed.

Lemma getLatestStockData_null net r :
  net latest_url = Responded r -> ok r = true -> json r = inr Null ->
  promise getLatestStockData net = Fulfilled getFallbackLatestData.
Proof.
  intros Hn Hok Hj. unfold getLatestStockData.
  run_body net latest_url Hn Hok Hj. reflexivity.
Qed.

Lemma getHistoricalData_null net days r :
  net historical_url = Responded r -> ok r = true -> json r = inr Null ->
  promise (getHistoricalData days) net = Fulfilled getFallbackHistoricalData.
Proof.
  intros Hn Hok Hj. unfold getHistoricalData.
  run_body net historical_url Hn Hok Hj. reflexivity.
Qed.

Lemma getAllRecommendations_null net r :
  net recommendations_url = Responded r -> ok r = true -> json r = inr Null ->
  promise getAllRecommendations net = Fulfilled getFallbackRecommendations.
Proof.
  intros Hn Hok Hj. unfold getAllRecommendations.
  run_body net recommendations_url Hn Hok Hj. reflexivity.
Qed.

(** The state a cycle ends in, given what the three promises hold. *)
Lemma fetchDashboardData_with now net s latest recs performanceMetrics :
  promise getLatestStockData net = Fulfilled latest ->
  promise getAllRecommendations net = Fulfilled recs ->
  promise getPerformanceMetrics net = Fulfilled performanceMetrics ->
  snd (fetchDashboardData now net s)
  = {| latestData := latest; recommendations := recs;
       metrics := performanceMetrics; loading := false; error := Null;
       lastUpdated := Some now |}.
Proof.
  exact (fetchDashboardData_holds now net s latest recs performanceMetrics).
Qed.

Lemma on_trigger_fetch t now net s :
  on_trigger t now net s = fetchDashboardData now net s.
Proof. destruct t; reflexivity. Qed.

(** X2. A response with a 2xx status whose body is the JSON [null] is
    treated as a failure by three operations, which read a property of the
    body and fall back, but not by [getPerformanceMetrics], which returns
    the [null]: the cycle then ends with [metrics] null, the metrics panel
    is not rendered and the footer counts 0 records. *)
Theorem null_body_falls_back_except_metrics
    (net : network) (days : value) (r : response) :
  ok r = true -> json r = inr Null ->
  (net latest_url = Responded r ->
     promise getLatestStockData net = Fulfilled getFallbackLatestData)
  /\ (net historical_url = Responded r ->
        promise (getHistoricalData days) net = Fulfilled getFallbackHistoricalData)
  /\ (net recommendations_url = Responded r ->
        promise getAllRecommendations net = Fulfilled getFallbackRecommendations)
  /\ (net metrics_url = Responded r ->
        promise getPerformanceMetrics net = Fulfilled Null
        /\ forall t now s,
             metrics (snd (on_trigger t now net s)) = Null
             /\ shows_metrics (snd (on_trigger t now net s)) = false
             /\ total_records (snd (on_trigger t now net s)) = Num 0).
Proof.
  intros Hok Hj. split; [| split; [| split]]; intros Hn.
  - now apply (getLatestStockData_null net r).
  - now apply (getHistoricalData_null net days r).
  - now apply (getAllRecommendations_null net r).
  - pose proof (getPerformanceMetrics_success net r Null Hn Hok Hj) as Hm.
    split; [exact Hm |]. intros t now s. rewrite on_trigger_fetch.
    destruct (getLatestStockData_resolves net) as [l Hl].
    destruct (getAllRecommendations_resolves net) as [rs Hr].
    rewrite (fetchDashboardData_with now net s l rs Null Hl Hr Hm).
    repeat split.
Qed.

Lemma null_body_falls_back_except_metrics_witness :
  promise getPerformanceMetrics
    (Samples.serving Samples.unreachable Samples.unreachable Samples.unreachable
       (Samples.answer Null))
  = Fulfilled Null.
Proof.
  apply (null_body_falls_back_except_metrics
           (Samples.serving Samples.unreachable Samples.unreachable
              Samples.unreachable (Samples.answer Null))
           Undefined (mkResponse 200 "OK" (inr Null))); reflexivity.
Defined.

Lemma or_truthy (a b : value) : truthy b = true -> truthy (or a b) = true.
Proof. intros Hb. unfold or. destruct (truthy a) eqn:E; assumption. Qed.

(** The value of [getLatestStockData] is an object. *)
Lemma getLatestStockData_object (net : network) :
  exists fields, promise getLatestStockData net = Fulfilled (Obj fields).
Proof.
  unfold getLatestStockData. rewrite promise_try_fallback.
  unfold bind, console_log, fetch, check_ok, lift, throw, ret.
  destruct (net latest_url) as [e | r]; cbn -[ok]; [eexists; reflexivity |].
  destruct (ok r); cbn; [| eexists; reflexivity].
  destruct (json r) as [e | data]; cbn; [eexists; reflexivity |].
  destruct data; cbn; eexists; reflexivity.
Qed.

(** X3. Whatever the network does, [getLatestStockData] is fulfilled with
    an object that has exactly the properties [id], [date], [symbol],
    [stockData] and [aiAnalysis], in this order, and whose [id] is truthy:
    a body without an [id] (or with the id 0) gets the id 1. *)
Theorem latest_is_an_object_with_an_id (net : network) :
  exists id date symbol stockData aiAnalysis,
    promise getLatestStockData net
    = Fulfilled (Obj [ ("id", id); ("date", date); ("symbol", symbol);
                       ("stockData", stockData); ("aiAnalysis", aiAnalysis) ])
    /\ truthy id = true.
Proof.
  unfold getLatestStockData. rewrite promise_try_fallback.
  unfold bind, console_log, fetch, check_ok, lift, throw, ret.
  destruct (net latest_url) as [e | r]; cbn -[ok].
  - repeat eexists.
  - destruct (ok r); cbn; [| repeat eexists].
    destruct (json r) as [e | data]; cbn; [repeat eexists |].
    destruct data; cbn; try (repeat eexists; fail);
      (do 5 eexists; split; [reflexivity | now apply or_truthy]).
Qed.

(** X4. A 2xx body other than [null] is returned as it is, whatever it
    holds: [getHistoricalData], [getAllRecommendations] and
    [getPerformanceMetrics] check nothing, and the cycle stores what they
    return.  When the body of [/api/recommendations] is not an array (an
    error object, say), the table shows its "No recommendations available"
    card; when the body of [/api/metrics] is a truthy value that is not an
    object (a string, say), the metrics panel shows its "Performance data
    not available" card. *)
Theorem bodies_are_not_validated
    (net : network) (days : value) (r : response) (body : value) :
  ok r = true -> json r = inr body -> body <> Null -> body <> Undefined ->
  (net historical_url = Responded r ->
     promise (getHistoricalData days) net = Fulfilled body)
  /\ (net metrics_url = Responded r ->
        promise getPerformanceMetrics net = Fulfilled body
        /\ forall t now s,
             metrics (snd (on_trigger t now net s)) = body
             /\ (truthy body = true -> typeof_object body = false ->
                 PerformanceMetrics.mode_of
                   (loading (snd (on_trigger t now net s)))
                   (metrics (snd (on_trigger t now net s)))
                 = PerformanceMetrics.Unavailable))
  /\ (net recommendations_url = Responded r ->
        promise getAllRecommendations net = Fulfilled body
        /\ forall t now s,
             recommendations (snd (on_trigger t now net s)) = body
             /\ (isArray body = false ->
                 RecommendationsTable.mode_of
                   (loading (snd (on_trigger t now net s)))
                   (recommendations (snd (on_trigger t now net s)))
                 = RecommendationsTable.NoData)).
Proof.
  intros Hok Hj H1 H2. split; [| split]; intros Hn.
  - now apply (getHistoricalData_success net days r).
  - pose proof (getPerformanceMetrics_success net r body Hn Hok Hj) as Hm.
    split; [exact Hm |]. intros t now s. rewrite on_trigger_fetch.
    destruct (getLatestStockData_resolves net) as [l Hl].
    destruct (getAllRecommendations_resolves net) as [rs Hr].
    rewrite (fetchDashboardData_with now net s l rs body Hl Hr Hm).
    cbn [metrics loading]. split; [reflexivity |].
    intros Ht Ho. unfold PerformanceMetrics.mode_of. now rewrite Ht, Ho.
  - pose proof (getAllRecommendations_success net r body Hn Hok Hj H1 H2) as Hr.
    split; [exact Hr |]. intros t now s. rewrite on_trigger_fetch.
    destruct (getLatestStockData_resolves net) as [l Hl].
    destruct (getPerformanceMetrics_resolves net) as [m Hm].
    rewrite (fetchDashboardData_with now net s l body m Hl Hr Hm).
    cbn [recommendations loading]. split; [reflexivity |].
    intros Ha. unfold RecommendationsTable.mode_of. rewrite Ha.
    now rewrite orb_true_r.
Qed.

Lemma bodies_are_not_validated_witness :
  promise getAllRecommendations
    (Samples.serving Samples.unreachable Samples.unreachable
       (Samples.answer (Obj [("error", Str "Database connection failed")]))
       Samples.unreachable)
  = Fulfilled (Obj [("error", Str "Database connection failed")]).
Proof.
  apply (bodies_are_not_validated
           (Samples.serving Samples.unreachable Samples.unreachable
              (Samples.answer (Obj [("error", Str "Database connection failed")]))
              Samples.unreachable)
           Undefined
           (mkResponse 200 "OK" (inr (Obj [("error", Str "Database connection failed")])))
           (Obj [("error", Str "Database connection failed")]));
    try reflexivity; discriminate.
Defined.

(** The state a cycle ends in does not depend on the state it started in. *)
Lemma fetchDashboardData_forgets now net s1 s2 :
  snd (fetchDashboardData now net s1) = snd (fetchDashboardData now net s2).
Proof.
  destruct (getLatestStockData_resolves net) as [l Hl].
  destruct (getAllRecommendations_resolves net) as [r Hr].
  destruct (getPerformanceMetrics_resolves net) as [m Hm].
  now rewrite !(fetchDashboardData_with now net _ l r m Hl Hr Hm).
Qed.

Lemma latest_truthy_after now net s :
  truthy (latestData (snd (fetchDashboardData now net s))) = true.
Proof.
  destruct (getLatestStockData_object net) as [fields Hl].
  destruct (getAllRecommendations_resolves net) as [r Hr].
  destruct (getPerformanceMetrics_resolves net) as [m Hm].
  rewrite (fetchDashboardData_with now net s _ r m Hl Hr Hm). reflexivity.
Qed.

Lemma ready_after now net s :
  render (snd (fetchDashboardData now net s)) = Dashboard false
  /\ error (snd (fetchDashboardData now net s)) = Null
  /\ loading (snd (fetchDashboardData now net s)) = false
  /\ lastUpdated (snd (fetchDashboardData now net s)) = Some now.
Proof.
  pose proof (latest_truthy_after now net s) as Ht.
  destruct (fetchDashboardData_state now net s) as (l & r & m & _ & _ & _ & E).
  rewrite E in *. cbn [latestData error loading lastUpdated] in *.
  unfold render. cbn [latestData error loading]. rewrite Ht. repeat split.
Qed.

Lemma run_last (cycles : list cycle) (c : cycle) (s : state) :
  run (cycles ++ [c]) s
  = snd (on_trigger (fst (fst c)) (snd (fst c)) (snd c) (run cycles s)).
Proof.
  revert s. induction cycles as [| [[t now] net] cycles IH]; intros s; cbn.
  - destruct c as [[t now] net]. reflexivity.
  - apply IH.
Qed.

(** X5. After any number of cycles, whatever started them and whatever the
    network did in each, the application is in its [Ready] presentation: the
    dashboard is rendered without the refresh-failed banner, never the
    connection-error screen; there is no error, [loading] is false, the
    footer says Online.  The state is the one the last cycle alone produces
    from any state: nothing of the earlier cycles is left, and
    [lastUpdated] is the time of the last cycle. *)
Theorem always_ready_after_a_cycle
    (cycles : list cycle) (t : trigger) (now : Z) (net : network) (s s0 : state) :
  let s' := run (cycles ++ [(t, now, net)]) s in
  render s' = Dashboard false
  /\ presentation_of s' = Ready
  /\ error s' = Null
  /\ loading s' = false
  /\ system_status s' = "Online"
  /\ shows_overview s' = true
  /\ lastUpdated s' = Some now
  /\ s' = snd (fetchDashboardData now net s0).
Proof.
  cbv zeta. rewrite run_last. cbn [fst snd]. rewrite on_trigger_fetch.
  destruct (ready_after now net (run cycles s)) as (Hr & He & Hl & Hu).
  pose proof (latest_truthy_after now net (run cycles s)) as Ht.
  repeat match goal with |- _ /\ _ => split end;
    try assumption.
  - unfold presentation_of. now rewrite Hr.
  - unfold system_status. now rewrite Ht.
  - apply fetchDashboardData_forgets.
Qed.

(** X6. While a cycle is in flight the data of the previous cycle stay in
    place and the error is cleared; the spinner is rendered exactly when
    there is no latest data.  So the spinner shows during the first cycle
    and, once a cycle has completed, never again: the later cycles run
    behind the dashboard. *)
Theorem stale_while_revalidate
    (cycles : list cycle) (t : trigger) (now : Z) (net : network) (s : state) :
  (latestData (in_flight s) = latestData s
   /\ recommendations (in_flight s) = recommendations s
   /\ metrics (in_flight s) = metrics s
   /\ lastUpdated (in_flight s) = lastUpdated s
   /\ error (in_flight s) = Null
   /\ loading (in_flight s) = true)
  /\ (render (in_flight s) = LoadingSpinner <-> truthy (latestData s) = false)
  /\ render (in_flight App.initial) = LoadingSpinner
  /\ render (in_flight (run (cycles ++ [(t, now, net)]) s)) = Dashboard false.
Proof.
  split; [repeat split | split; [| split; [reflexivity |]]].
  - unfold render, in_flight. cbn.
    destruct (truthy (latestData s)); cbn; split; congruence.
  - rewrite run_last. cbn [fst snd]. rewrite on_trigger_fetch.
    pose proof (latest_truthy_after now net (run cycles s)) as Ht.
    unfold render, in_flight, setError, setLoading.
    cbn [latestData error loading]. rewrite Ht. reflexivity.
Qed.

(** X7. When the three requests of a cycle all fail, nothing on the page
    tells: the cycle ends without error in the [Ready] presentation, with
    the three fallback values as data; the footer says Online and counts 7
    records, the table, the metrics panel and the overview are rendered
    from the fallback values, the overview starts without throwing, and
    the last thing the cycle logs is its success message, not an error. *)
Theorem total_outage_looks_healthy
    (StringToNumber : string -> float) (ArrayToString : list value -> string)
    (t : trigger) (now : Z) (net : network) (s : state) (k1 k2 k3 : failure) :
  failure_of (net latest_url) = Some k1 ->
  failure_of (net recommendations_url) = Some k2 ->
  failure_of (net metrics_url) = Some k3 ->
  let s' := snd (on_trigger t now net s) in
  s' = {| latestData := getFallbackLatestData;
          recommendations := getFallbackRecommendations;
          metrics := getFallbackMetrics;
          loading := false; error := Null; lastUpdated := Some now |}
  /\ presentation_of s' = Ready
  /\ system_status s' = "Online"
  /\ total_records s' = Num 7
  /\ RecommendationsTable.mode_of (loading s') (recommendations s')
     = RecommendationsTable.Table
  /\ PerformanceMetrics.mode_of (loading s') (metrics s') = PerformanceMetrics.Panel
  /\ StockOverview.start StringToNumber ArrayToString (latestData s')
     = inr (StockOverview.Rendering true)
  /\ last (fst (on_trigger t now net s)) ConsoleError = ConsoleLog.
Proof.
  intros H1 H2 H3. cbv zeta. rewrite on_trigger_fetch.
  assert (L : last (fst (fetchDashboardData now net s)) ConsoleError = ConsoleLog).
  { unfold fetchDashboardData.
    destruct (fetchDashboardData_events gateway_calls now net s (Permutation_refl _))
      as [E _].
    rewrite E, app_assoc. apply last_last. }
  rewrite (fetchDashboardData_with now net s _ _ _
             (getLatestStockData_failure net k1 H1)
             (getAllRecommendations_failure net k2 H2)
             (getPerformanceMetrics_failure net k3 H3)).
  repeat match goal with |- _ /\ _ => split end; try reflexivity. exact L.
Qed.

Lemma total_outage_looks_healthy_witness :
  presentation_of (snd (on_trigger IntervalTick 1757635200000 Samples.all_down App.initial))
  = Ready.
Proof.
  apply (total_outage_looks_healthy (fun _ => PrimFloat.nan) (fun _ => "")
           IntervalTick 1757635200000 Samples.all_down App.initial
           TransportFailure ParseFailure StatusFailure); reflexivity.
Defined.

(** X8. The gateway lets through a body of [/api/latest] that has no
    [stockData]: the cycle ends in the [Ready] presentation with a truthy
    [latestData], the overview is rendered, and its first statement after
    the destructuring, which reads [stockData.change], throws a
    [TypeError]. *)
Theorem overview_throws_without_stockData
    (StringToNumber : string -> float) (ArrayToString : list value -> string)
    (t : trigger) (now : Z) (net : network) (s : state)
    (r : response) (body : value) :
  net latest_url = Responded r -> ok r = true -> json r = inr body ->
  body <> Null -> body <> Undefined ->
  read body "stockData" = Undefined \/ read body "stockData" = Null ->
  let s' := snd (on_trigger t now net s) in
  presentation_of s' = Ready
  /\ shows_overview s' = true
  /\ exists msg,
       StockOverview.start StringToNumber ArrayToString (latestData s')
       = inl (TypeError msg).
Proof.
  intros Hn Hok Hj H1 H2 Hsd. cbv zeta. rewrite on_trigger_fetch.
  destruct (ready_after now net s) as (Hr & _).
  pose proof (latest_truthy_after now net s) as Ht.
  split; [unfold presentation_of; now rewrite Hr | split; [exact Ht |]].
  destruct (getAllRecommendations_resolves net) as [rs Hrs].
  destruct (getPerformanceMetrics_resolves net) as [m Hm].
  rewrite (fetchDashboardData_with now net s _ rs m
             (getLatestStockData_success net r body Hn Hok Hj H1 H2) Hrs Hm).
  cbn [latestData]. unfold StockOverview.start.
  change (truthy (latest_of body)) with true. cbn [negb].
  change (read (latest_of body) "stockData") with (read body "stockData").
  destruct Hsd as [-> | ->]; eexists; reflexivity.
Qed.

Lemma overview_throws_without_stockData_witness :
  exists msg,
    StockOverview.start (fun _ => PrimFloat.nan) (fun _ => "")
      (latestData
         (snd (on_trigger InitialLoad 0
                 (Samples.serving (Samples.answer (Obj [])) Samples.unreachable
                    Samples.unreachable Samples.unreachable)
                 App.initial)))
    = inl (TypeError msg).
Proof.
  apply (overview_throws_without_stockData (fun _ => PrimFloat.nan) (fun _ => "")
           InitialLoad 0
           (Samples.serving (Samples.answer (Obj [])) Samples.unreachable
              Samples.unreachable Samples.unreachable)
           App.initial (mkResponse 200 "OK" (inr (Obj []))) (Obj []));
    try reflexivity; try discriminate.
  left. reflexivity.
Defined.

End GatewayBehaviour.

(* ================================================================== *)
(** * Further properties of the table *)

Section TableBehaviour.
Import Runtime RecommendationsTable.

(** X9. [handleSort(f)] always leaves [f] as the sort field and never
    touches the filter; a third call in a row brings back the state of the
    first, so the direction alternates from the second call on; and it does
    not matter whether the filter is set before or after. *)
Theorem handleSort_algebra (f : field) (v : string) (s : state) :
  sortField (handleSort f s) = f
  /\ filterSentiment (handleSort f s) = filterSentiment s
  /\ handleSort f (handleSort f (handleSort f s)) = handleSort f s
  /\ handleSort f (setFilterSentiment v s) = setFilterSentiment v (handleSort f s).
Proof.
  destruct s as [g d w].
  repeat match goal with |- _ /\ _ => split end;
    destruct g, f, d; reflexivity.
Qed.

Lemma lower_idempotent (c : ascii) : lower (lower c) = lower c.
Proof.
  destruct c as [[] [] [] [] [] [] [] []]; reflexivity.
Qed.

Lemma toLowerCase_idempotent (s : string) :
  toLowerCase (toLowerCase s) = toLowerCase s.
Proof.
  induction s as [| c s IH]; cbn; [reflexivity |].
  now rewrite lower_idempotent, IH.
Qed.

Lemma filter_none {A : Type} (f : A -> bool) (l : list A) :
  (forall x, In x l -> f x = false) -> filter f l = [].
Proof.
  induction l as [| a l IH]; intros H; cbn; [reflexivity |].
  rewrite (H a (or_introl eq_refl)). apply IH.
  intros x Hx. apply H. now right.
Qed.

Lemma sortedData_Permutation (e : engine) (s : state) (data : list recommendation) :
  rearranges e -> Permutation (sortedData e s data) (filteredData s data).
Proof. intros He. unfold sortedData. apply He. Qed.

(** X10. The filter compares the lower-cased sentiment with the filter
    value as it is.  So, on sentiments and a filter value of ASCII
    characters, a value that is its own lower-case form selects the rows
    whose sentiment equals it when case is ignored, and a value other than
    [all] with an upper-case letter in it selects no row at all. *)
Theorem filter_value_must_be_lower_case
    (e : engine) (s : state) (data : list recommendation) (v : string) :
  rearranges e ->
  ascii_only v = true ->
  Forall (fun item => ascii_only (sentiment item) = true) data ->
  (toLowerCase v = v ->
     Permutation (sortedData e (setFilterSentiment v s) data)
                 (filter (asked_for v) data))
  /\ (v <> "all" -> toLowerCase v <> v ->
      sortedData e (setFilterSentiment v s) data = []).
Proof.
  intros He _ _. split.
  - intros Hv. rewrite (sortedData_Permutation e _ data He).
    unfold filteredData.
    replace (filter (keeps (setFilterSentiment v s)) data)
      with (filter (asked_for v) data); [reflexivity |].
    apply filter_ext. intros item.
    unfold keeps, asked_for, same_ignoring_case, setFilterSentiment.
    cbn [filterSentiment]. rewrite Hv.
    destruct (String.eqb v "all"); reflexivity.
  - intros Hall Hv.
    apply Permutation_nil. symmetry.
    rewrite (sortedData_Permutation e _ data He).
    unfold filteredData.
    replace (filter (keeps (setFilterSentiment v s)) data) with (@nil recommendation);
      [reflexivity |].
    symmetry. apply filter_none. intros item _.
    unfold keeps, setFilterSentiment. cbn [filterSentiment].
    destruct (String.eqb_spec v "all") as [E | _]; [contradiction |].
    destruct (String.eqb_spec (toLowerCase (sentiment item)) v) as [E | _];
      [| reflexivity].
    exfalso. apply Hv. rewrite <- E. apply toLowerCase_idempotent.
Qed.

Lemma filter_value_must_be_lower_case_witness :
  sortedData (v8 0) (setFilterSentiment "Bullish" initial)
    [Rows.sep_12; Rows.sep_1; Rows.sep_2]
  = [].
Proof.
  apply (filter_value_must_be_lower_case (v8 0) initial
           [Rows.sep_12; Rows.sep_1; Rows.sep_2] "Bullish" (v8_rearranges 0));
    [reflexivity | repeat constructor | discriminate | discriminate].
Defined.

Lemma StronglySorted_weaken {A : Type} (R R' : A -> A -> Prop) (l : list A) :
  (forall x y, R x y -> R' x y) -> StronglySorted R l -> StronglySorted R' l.
Proof.
  intros H. induction 1 as [| a l Hl IH Ha]; constructor; [exact IH |].
  apply Forall_impl with (2 := Ha). apply H.
Qed.

Lemma comparefn_risk_asc_key (tz : Z) (v : string) (a b : recommendation) :
  (comparefn (v8 tz) (mkState riskScore_field asc v) a b <? 0)
  = (riskScore a <=? riskScore b).
Proof.
  unfold comparefn, less. cbn [sortDirection sortField].
  destruct (Z.ltb_spec (riskScore b) (riskScore a)),
    (Z.leb_spec (riskScore a) (riskScore b)); try lia; reflexivity.
Qed.

Lemma comparefn_risk_desc_key (tz : Z) (v : string) (a b : recommendation) :
  (comparefn (v8 tz) (mkState riskScore_field desc v) a b <? 0)
  = (- riskScore a <=? - riskScore b).
Proof.
  unfold comparefn, less. cbn [sortDirection sortField].
  destruct (Z.ltb_spec (riskScore a) (riskScore b)),
    (Z.leb_spec (- riskScore a) (- riskScore b)); try lia; reflexivity.
Qed.

(** X11. Sorted by risk, the rows shown are in the order of their risk
    scores, whatever the data and the filter: lowest first when ascending,
    highest first when descending. *)
Theorem risk_sort_orders_rows (tz : Z) (v : string) (data : list recommendation) :
  by_risk (sortedData (v8 tz) (mkState riskScore_field asc v) data)
  /\ by_risk_descending (sortedData (v8 tz) (mkState riskScore_field desc v) data).
Proof.
  split.
  - apply (v8_sort_ordered _ riskScore (fun _ => True)
             (fun a b _ _ => comparefn_risk_asc_key tz v a b)).
    apply Forall_forall. trivial.
  - apply (StronglySorted_weaken (fun x y => - riskScore x <= - riskScore y));
      [intros x y; lia |].
    apply (v8_sort_ordered _ (fun x => - riskScore x) (fun _ => True)
             (fun a b _ _ => comparefn_risk_desc_key tz v a b)).
    apply Forall_forall. trivial.
Qed.

Lemma run_extends_all {A : Type} (cmp : A -> A -> Z) (previous : A) (rest : list A) :
  (forall a b, In a (previous :: rest) -> In b (previous :: rest) -> cmp a b < 0) ->
  run_extends cmp true previous rest = List.length rest.
Proof.
  revert previous. induction rest as [| current rest IH]; intros previous H; cbn;
    [reflexivity |].
  assert (E : (cmp current previous <? 0) = true).
  { apply Z.ltb_lt. apply H; [right; now left | now left]. }
  rewrite E. f_equal. apply IH.
  intros a b Ha Hb. apply H; now right.
Qed.

(** When the comparison function puts every element before every other,
    the sort reverses the array. *)
Lemma v8_sort_all_before {A : Type} (cmp : A -> A -> Z) (l : list A) :
  (forall a b, In a l -> In b l -> cmp a b < 0) ->
  v8_sort cmp l = rev l.
Proof.
  intros H. destruct l as [| x0 [| x1 rest]]; try reflexivity.
  unfold v8_sort, CountAndMakeRun.
  change (List.length (x0 :: x1 :: rest) <? 2)%nat with false.
  assert (E : (cmp x1 x0 <? 0) = true).
  { apply Z.ltb_lt. apply H; [right; now left | now left]. }
  rewrite E, run_extends_all by (intros a b Ha Hb; apply H; now right).
  change (2 + List.length rest)%nat with (List.length (x0 :: x1 :: rest)).
  rewrite firstn_all, skipn_all, Nat.sub_diag, app_nil_r. reflexivity.
Qed.

(** X12. When no row shown is less than another in the sort column (the
    keys compared are all equal, or the dates all have the time value
    [NaN]), the table shows the filtered rows in the reverse of their order
    in the data, and clicking the header of the sort column again, which
    flips the direction, changes nothing.  [read] is the engine's reading
    of dates, whatever it is. *)
Theorem tied_rows_come_out_reversed
    (read : string -> option Z) (s : state) (data : list recommendation) :
  (forall a b,
     In a (filteredData s data) -> In b (filteredData s data) ->
     less (v8_reading read) (sortField s) a b = false) ->
  sortedData (v8_reading read) s data = rev (filteredData s data)
  /\ sortedData (v8_reading read) (handleSort (sortField s) s) data
     = sortedData (v8_reading read) s data.
Proof.
  intros H.
  assert (E : sortedData (v8_reading read) s data = rev (filteredData s data)).
  { unfold sortedData. cbn [array_sort v8_reading]. apply v8_sort_all_before.
    intros a b Ha Hb.
    destruct (comparefn_ties (v8_reading read) s a b (H a b Ha Hb) (H b a Hb Ha))
      as [-> _].
    lia. }
  split; [exact E |]. rewrite E.
  destruct s as [f d v]. cbn [sortField] in *.
  assert (Ef : handleSort f (mkState f d v)
               = mkState f (match d with asc => desc | desc => asc end) v)
    by (destruct f; reflexivity).
  rewrite Ef. unfold sortedData. cbn [array_sort v8_reading].
  change (filteredData (mkState f (match d with asc => desc | desc => asc end) v) data)
    with (filteredData (mkState f d v) data).
  apply v8_sort_all_before. intros a b Ha Hb.
  destruct (comparefn_ties (v8_reading read)
              (mkState f (match d with asc => desc | desc => asc end) v) a b
              (H a b Ha Hb) (H b a Hb Ha)) as [-> _].
  lia.
Qed.

Lemma tied_rows_come_out_reversed_witness :
  sortedData (v8 0) (mkState riskScore_field asc "all")
    [Rows.mock_0912; Rows.mock_0911]
  = [Rows.mock_0911; Rows.mock_0912].
Proof.
  apply (tied_rows_come_out_reversed (Date_parse (fun _ => 0))
           (mkState riskScore_field asc "all")
           [Rows.mock_0912; Rows.mock_0911]).
  intros a b [<- | [<- | []]] [<- | [<- | []]]; reflexivity.
Defined.

Lemma filteredData_initial (data : list recommendation) :
  filteredData initial data = data.
Proof.
  unfold filteredData. apply forallb_filter_id.
  apply forallb_forall. intros item _. reflexivity.
Qed.

Lemma v8_reading_rearranges (read : string -> option Z) : rearranges (v8_reading read).
Proof. intros A cmp a. apply v8_sort_Permutation. Qed.

(** X13. In the view the table opens with (by date, latest first, no
    filter), on rows whose dates all have a time value, the first row is a
    row of the data that no other row is later than, and the "Latest
    Recommendations" box shows the first two of its recommendations, or
    fewer when it has fewer.  [read] is the engine's reading of dates,
    whatever it is. *)
Theorem default_view_starts_with_latest
    (read : string -> option Z) (data : list recommendation) :
  Forall (valid_date read) data -> data <> [] ->
  exists first rest,
    sortedData (v8_reading read) initial data = first :: rest
    /\ In first data
    /\ (forall item, In item data -> time_of read item <= time_of read first)
    /\ preview (sortedData (v8_reading read) initial data)
       = Some (firstn 2 (recommendations first))
    /\ (List.length (firstn 2 (recommendations first)) <= 2)%nat.
Proof.
  intros Hv Hne.
  pose proof (sortedData_Permutation (v8_reading read) initial data
                (v8_reading_rearranges read)) as P.
  rewrite filteredData_initial in P.
  destruct (sortedData_by_date read "all" data Hv) as [_ Hs].
  change (mkState date_field desc "all") with initial in Hs.
  destruct (sortedData (v8_reading read) initial data) as [| first rest] eqn:E.
  - apply Permutation_nil in P. congruence.
  - exists first, rest. split; [reflexivity |].
    split; [apply (Permutation_in _ P); now left |].
    split; [| split; [reflexivity | apply firstn_le_length]].
    intros item Hin. apply (Permutation_in _ (Permutation_sym P)) in Hin.
    destruct Hin as [<- | Hin]; [lia |].
    unfold latest_first in Hs. apply StronglySorted_inv in Hs.
    destruct Hs as [_ Hf]. rewrite Forall_forall in Hf.
    specialize (Hf item Hin). lia.
Qed.

Lemma default_view_starts_with_latest_witness :
  exists first rest,
    sortedData (v8 0) initial [Rows.mock_0911; Rows.mock_0912] = first :: rest
    /\ In first [Rows.mock_0911; Rows.mock_0912]
    /\ (forall item, In item [Rows.mock_0911; Rows.mock_0912] ->
          time_of (Date_parse (fun _ => 0)) item
          <= time_of (Date_parse (fun _ => 0)) first)
    /\ preview (sortedData (v8 0) initial [Rows.mock_0911; Rows.mock_0912])
       = Some (firstn 2 (recommendations first))
    /\ (List.length (firstn 2 (recommendations first)) <= 2)%nat.
Proof.
  apply (default_view_starts_with_latest (Date_parse (fun _ => 0))
           [Rows.mock_0911; Rows.mock_0912]).
  - repeat constructor; discriminate.
  - discriminate.
Defined.

End TableBehaviour.

(* ================================================================== *)
(** * The sort orders the array by any total preorder

    [cmp] answers a negative number only when its first argument is not
    after its second in the preorder [le], and another number only when
    its second argument is not after its first. *)

Section SortOrdersBy.
Import Runtime.
Context {A : Type}.
Variables (cmp : A -> A -> Z) (le : A -> A -> Prop).
Hypothesis le_trans : forall x y z, le x y -> le y z -> le x z.
Hypothesis cmp_before : forall a b, (cmp a b <? 0) = true -> le a b.
Hypothesis cmp_after : forall a b, (cmp a b <? 0) = false -> le b a.

Lemma sorted_app (l1 l2 : list A) :
  StronglySorted le l1 -> StronglySorted le l2 ->
  (forall x y, In x l1 -> In y l2 -> le x y) ->
  StronglySorted le (l1 ++ l2).
Proof.
  induction l1 as [| a l1 IH]; intros H1 H2 H; cbn; [exact H2 |].
  apply StronglySorted_inv in H1. destruct H1 as [H1 Ha].
  constructor.
  - apply IH; [exact H1 | exact H2 |]. intros x y Hx Hy. apply H; [now right | exact Hy].
  - apply Forall_app. split; [exact Ha |].
    apply Forall_forall. intros y Hy. apply H; [now left | exact Hy].
Qed.

Lemma sorted_app_inv (l1 l2 : list A) :
  StronglySorted le (l1 ++ l2) ->
  StronglySorted le l1 /\ StronglySorted le l2
  /\ (forall x y, In x l1 -> In y l2 -> le x y).
Proof.
  induction l1 as [| a l1 IH]; cbn; intros H.
  - split; [constructor | split; [exact H |]]. intros x y [].
  - apply StronglySorted_inv in H. destruct H as [H Ha].
    destruct (IH H) as (H1 & H2 & H12).
    apply Forall_app in Ha. destruct Ha as [Ha1 Ha2].
    split; [now constructor | split; [exact H2 |]].
    intros x y [<- | Hx] Hy.
    + rewrite Forall_forall in Ha2. now apply Ha2.
    + now apply H12.
Qed.

Lemma sorted_rev (l : list A) :
  StronglySorted (fun x y => le y x) l -> StronglySorted le (rev l).
Proof.
  induction 1 as [| a l Hl IH Ha]; cbn; [constructor |].
  apply sorted_app; [exact IH | repeat constructor |].
  intros x y Hx [<- | []]. apply in_rev in Hx.
  rewrite Forall_forall in Ha. now apply Ha.
Qed.

Lemma run_descending_by previous (rest : list A) :
  Sorted (fun x y => le y x)
    (previous :: firstn (run_extends cmp true previous rest) rest).
Proof.
  revert previous. induction rest as [| current rest IH]; intros previous; cbn.
  - repeat constructor.
  - destruct (cmp current previous <? 0) eqn:E; cbn.
    + constructor; [apply IH |]. constructor. now apply cmp_before.
    + repeat constructor.
Qed.

Lemma run_ascending_by previous (rest : list A) :
  Sorted le (previous :: firstn (run_extends cmp false previous rest) rest).
Proof.
  revert previous. induction rest as [| current rest IH]; intros previous; cbn.
  - repeat constructor.
  - destruct (cmp current previous <? 0) eqn:E; cbn.
    + repeat constructor.
    + constructor; [apply IH |]. constructor. now apply cmp_after.
Qed.

Lemma CountAndMakeRun_sorted (a : list A) :
  (fst (CountAndMakeRun cmp a) <= List.length a)%nat
  /\ StronglySorted le (firstn (fst (CountAndMakeRun cmp a)) (snd (CountAndMakeRun cmp a))).
Proof.
  destruct a as [| x0 [| x1 rest]].
  - cbn. split; [lia | constructor].
  - cbn. split; [lia | repeat constructor].
  - unfold CountAndMakeRun.
    pose proof (run_extends_length cmp (cmp x1 x0 <? 0) x1 rest) as Hlen.
    destruct (cmp x1 x0 <? 0) eqn:E; cbn [fst snd].
    + split; [cbn; lia |].
      rewrite firstn_app.
      rewrite length_rev, length_firstn.
      replace (2 + run_extends cmp true x1 rest
               - Nat.min (2 + run_extends cmp true x1 rest)
                         (List.length (x0 :: x1 :: rest)))%nat
        with 0%nat by (cbn [List.length]; lia).
      cbn [firstn]. rewrite app_nil_r.
      rewrite firstn_all2 by (rewrite length_rev, length_firstn; cbn [List.length]; lia).
      apply sorted_rev.
      apply Sorted_StronglySorted; [intros x y z Hxy Hyz; exact (le_trans z y x Hyz Hxy) |].
      cbn [Nat.add firstn].
      constructor; [apply run_descending_by |].
      constructor. now apply cmp_before.
    + split; [cbn; lia |].
      apply Sorted_StronglySorted; [exact le_trans |].
      cbn [Nat.add firstn].
      constructor; [apply run_ascending_by |].
      constructor. now apply cmp_after.
Qed.

Lemma search_splits_by fuel pivot (before after : list A) (left right : nat) :
  StronglySorted le before ->
  (left <= right <= List.length before)%nat ->
  (right - left <= fuel)%nat ->
  Forall (fun x => le x pivot) (firstn left before) ->
  Forall (fun x => le pivot x) (skipn right before) ->
  Forall (fun x => le x pivot)
    (firstn (search cmp fuel pivot (before ++ pivot :: after) left right) before)
  /\ Forall (fun x => le pivot x)
       (skipn (search cmp fuel pivot (before ++ pivot :: after) left right) before).
Proof.
  intros Hs. revert left right.
  induction fuel as [| fuel IH]; intros left right Hlr Hfuel Hl Hr; cbn [search].
  - replace right with left in Hr by lia. now split.
  - destruct (Nat.ltb_spec left right) as [Hlt | Hge];
      [| replace right with left in Hr by lia; now split].
    set (mid := (left + (right - left) / 2)%nat).
    assert (Hmid : (left <= mid < right)%nat).
    { subst mid. split; [lia |].
      assert ((right - left) / 2 < right - left)%nat by (apply Nat.div_lt; lia).
      lia. }
    rewrite nth_error_app1 by lia.
    destruct (nth_error before mid) as [x |] eqn:Hx;
      [| apply nth_error_None in Hx; lia].
    destruct (nth_error_split before mid Hx) as (l1 & l2 & Hbefore & Hl1).
    pose proof Hs as Hs'. rewrite Hbefore in Hs'.
    apply sorted_app_inv in Hs'. destruct Hs' as (_ & Hs2 & H12).
    apply StronglySorted_inv in Hs2. destruct Hs2 as [_ Hx2].
    destruct (cmp pivot x <? 0) eqn:E.
    + apply IH; [lia | lia | exact Hl |].
      pose proof (cmp_before pivot x E) as Hle.
      rewrite Hbefore, skipn_app, skipn_all2 by lia.
      replace (mid - List.length l1)%nat with 0%nat by lia.
      cbn [app skipn]. constructor; [exact Hle |].
      apply Forall_impl with (2 := Hx2). intros y Hy. exact (le_trans _ _ _ Hle Hy).
    + apply IH; [lia | lia | | exact Hr].
      pose proof (cmp_after pivot x E) as Hle.
      rewrite Hbefore.
      replace (S mid) with (List.length (l1 ++ [x])%list)
        by (rewrite length_app; cbn; lia).
      change (l1 ++ x :: l2)%list with (l1 ++ [x] ++ l2)%list.
      rewrite app_assoc, firstn_app, firstn_all, Nat.sub_diag.
      cbn [firstn]. rewrite app_nil_r.
      apply Forall_app. split; [| constructor; [exact Hle | constructor]].
      apply Forall_forall. intros y Hy.
      exact (le_trans _ _ _ (H12 y x Hy (or_introl eq_refl)) Hle).
Qed.

Lemma insert_pivot_sorted (a : list A) (start : nat) :
  (start < List.length a)%nat ->
  StronglySorted le (firstn start a) ->
  StronglySorted le (firstn (S start) (insert_pivot cmp a start)).
Proof.
  intros Hlt Hs.
  destruct (nth_error a start) as [pivot |] eqn:Hn;
    [| apply nth_error_None in Hn; lia].
  destruct (insert_pivot_shape cmp a start pivot Hn) as (before & after & Ea & Hlen & E).
  rewrite E. clear E.
  assert (Hfirst : firstn start a = before).
  { rewrite Ea, <- Hlen, firstn_app, firstn_all, Nat.sub_diag. cbn. apply app_nil_r. }
  rewrite Hfirst in Hs.
  pose proof (search_bounds cmp start pivot a 0 start (Nat.le_0_l _)) as [_ Hk].
  assert (Hsplit := search_splits_by start pivot before after 0 start Hs).
  rewrite <- Ea in Hsplit.
  destruct Hsplit as [Hlow Hhigh];
    [lia | lia | constructor | rewrite <- Hlen, skipn_all; constructor |].
  set (k := search cmp start pivot a 0 start) in *.
  replace (S start)
    with (List.length (firstn k before ++ pivot :: skipn k before)%list).
  2:{ rewrite length_app. cbn [List.length]. rewrite length_firstn, length_skipn. lia. }
  change (firstn k before ++ pivot :: skipn k before ++ after)%list
    with (firstn k before ++ (pivot :: skipn k before) ++ after)%list.
  rewrite app_assoc, firstn_app, firstn_all, Nat.sub_diag.
  cbn [firstn]. rewrite app_nil_r.
  rewrite <- (firstn_skipn k before) in Hs.
  apply sorted_app_inv in Hs. destruct Hs as (Hs1 & Hs2 & _).
  apply sorted_app; [exact Hs1 | constructor; [exact Hs2 | exact Hhigh] |].
  intros x y Hx [<- | Hy].
  - rewrite Forall_forall in Hlow. now apply Hlow.
  - rewrite Forall_forall in Hlow, Hhigh.
    exact (le_trans _ _ _ (Hlow x Hx) (Hhigh y Hy)).
Qed.

Lemma BinaryInsertionSort_sorted rounds (a : list A) (start : nat) :
  (start + rounds = List.length a)%nat ->
  StronglySorted le (firstn start a) ->
  StronglySorted le (BinaryInsertionSort cmp rounds a start).
Proof.
  revert a start. induction rounds as [| rounds IH]; intros a start Hlen Hs; cbn.
  - rewrite firstn_all2 in Hs by lia. exact Hs.
  - apply IH.
    + rewrite insert_pivot_length. lia.
    + apply insert_pivot_sorted; [lia | exact Hs].
Qed.

(** The sort puts the array in the order of [le]. *)
Lemma v8_sort_sorted (a : list A) : StronglySorted le (v8_sort cmp a).
Proof.
  unfold v8_sort.
  destruct (Nat.ltb_spec (List.length a) 2) as [Hshort | Hlong].
  - destruct a as [| x [| y a]]; [constructor | repeat constructor | cbn in Hshort; lia].
  - destruct (CountAndMakeRun_sorted a) as [Hrun Hs].
    pose proof (CountAndMakeRun_Permutation cmp a) as Hp.
    destruct (CountAndMakeRun cmp a) as [runLength a']. cbn [fst snd] in *.
    apply BinaryInsertionSort_sorted.
    + rewrite (Permutation_length Hp). lia.
    + exact Hs.
Qed.

End SortOrdersBy.

Section SentimentSort.
Import Runtime RecommendationsTable.

Lemma ascii_compare_N (a b : ascii) :
  Ascii.compare a b = N.compare (N_of_ascii a) (N_of_ascii b).
Proof. reflexivity. Qed.

(** The order of strings is transitive. *)
Lemma string_compare_trans (a b c : string) :
  String.compare a b <> Gt -> String.compare b c <> Gt -> String.compare a c <> Gt.
Proof.
  revert b c. induction a as [| x a IH]; intros [| y b] [| z c]; cbn;
    try congruence.
  rewrite !ascii_compare_N.
  destruct (N.compare_spec (N_of_ascii x) (N_of_ascii y)) as [Exy | Lxy | Gxy];
    destruct (N.compare_spec (N_of_ascii y) (N_of_ascii z)) as [Eyz | Lyz | Gyz];
    destruct (N.compare_spec (N_of_ascii x) (N_of_ascii z)) as [Exz | Lxz | Gxz];
    try congruence; try lia.
  apply IH.
Qed.

Lemma str_lt_false_iff (a b : string) :
  str_lt b a = false <-> String.compare a b <> Gt.
Proof.
  unfold str_lt, String.ltb. rewrite (String.compare_antisym b a).
  destruct (String.compare a b); cbn; split; congruence.
Qed.

(** X17. Sorted by sentiment, the rows shown are in the order of their
    sentiment strings (the order of their characters, capitals before
    small letters), whatever the data and the filter: no row is followed by
    one whose sentiment is smaller when ascending, or greater when
    descending. *)
Theorem sentiment_sort_orders_rows (tz : Z) (v : string) (data : list recommendation) :
  StronglySorted (fun x y => str_lt (sentiment y) (sentiment x) = false)
    (sortedData (v8 tz) (mkState sentiment_field asc v) data)
  /\ StronglySorted (fun x y => str_lt (sentiment x) (sentiment y) = false)
       (sortedData (v8 tz) (mkState sentiment_field desc v) data).
Proof.
  split.
  - apply (v8_sort_sorted (comparefn (v8 tz) (mkState sentiment_field asc v))
             (fun x y => str_lt (sentiment y) (sentiment x) = false)).
    + intros x y z. rewrite !str_lt_false_iff. apply string_compare_trans.
    + intros a b. unfold comparefn, less. cbn [sortDirection sortField].
      destruct (str_lt (sentiment b) (sentiment a)); [discriminate | reflexivity].
    + intros a b. unfold comparefn, less. cbn [sortDirection sortField].
      destruct (str_lt (sentiment b) (sentiment a)) eqn:E; [| discriminate].
      intros _. apply str_lt_false_iff.
      unfold str_lt, String.ltb in E.
      destruct (String.compare (sentiment b) (sentiment a)); congruence.
  - apply (v8_sort_sorted (comparefn (v8 tz) (mkState sentiment_field desc v))
             (fun x y => str_lt (sentiment x) (sentiment y) = false)).
    + intros x y z H1 H2. rewrite str_lt_false_iff in *.
      exact (string_compare_trans _ _ _ H2 H1).
    + intros a b. unfold comparefn, less. cbn [sortDirection sortField].
      destruct (str_lt (sentiment a) (sentiment b)); [discriminate | reflexivity].
    + intros a b. unfold comparefn, less. cbn [sortDirection sortField].
      destruct (str_lt (sentiment a) (sentiment b)) eqn:E; [| discriminate].
      intros _. apply str_lt_false_iff.
      unfold str_lt, String.ltb in E.
      destruct (String.compare (sentiment a) (sentiment b)); congruence.
Qed.

End SentimentSort.

(* ================================================================== *)
(** * Further properties of the panels *)

Section Panels.
Import Js.

Ltac decide_bars score :=
  repeat match goal with
         | |- context [(?i <=? score)] => destruct (Z.leb_spec i score); try lia
         | |- context [(score <=? ?i)] => destruct (Z.leb_spec score i); try lia
         end.

(** X14. The gauge has ten bars, of which as many are lit as the risk
    score says, none below 0 and all ten from 10 on; the lit bars are the
    first ones and all have the colour of the band of the score. *)
Theorem gauge_lights_the_score (score : Z) :
  List.length (AIAnalysis.gauge score) = 10%nat
  /\ lit (AIAnalysis.gauge score) = Z.to_nat (clamp_0_10 score)
  /\ AIAnalysis.gauge score
     = (repeat (match risk_band score with
                | Low => "bg-green-400"
                | Medium => "bg-yellow-400"
                | High => "bg-red-400"
                end) (Z.to_nat (clamp_0_10 score))
        ++ repeat "bg-gray-600" (10 - Z.to_nat (clamp_0_10 score)))%list.
Proof.
  split; [reflexivity |].
  assert (C : score <= 0 \/ score = 1 \/ score = 2 \/ score = 3 \/ score = 4
              \/ score = 5 \/ score = 6 \/ score = 7 \/ score = 8 \/ score = 9
              \/ 10 <= score) by lia.
  destruct C as [C | [C | [C | [C | [C | [C | [C | [C | [C | [C | C]]]]]]]]]];
    try (subst score; split; reflexivity).
  - replace (clamp_0_10 score) with 0 by (unfold clamp_0_10; lia).
    unfold AIAnalysis.gauge, AIAnalysis.gauge_bar, lit. cbn [map].
    decide_bars score. split; reflexivity.
  - replace (clamp_0_10 score) with 10 by (unfold clamp_0_10; lia).
    unfold AIAnalysis.gauge, AIAnalysis.gauge_bar, lit, risk_band. cbn [map].
    decide_bars score. split; reflexivity.
Qed.

Section ChartData.
Import PerformanceMetrics.
Variable StringToNumber : string -> float.
Variable ArrayToString : list Js.value -> string.








End ChartData.


(** X16. The filter of the table and the colour of the sentiment in the
    analysis panel read a sentiment alike, ignoring case: a row passes the
    bullish filter exactly when its sentiment gets the bullish colour, and
    so for bearish and neutral. *)
Theorem filter_and_colour_agree
    (s : RecommendationsTable.state) (item : RecommendationsTable.recommendation) :
  (RecommendationsTable.keeps (RecommendationsTable.setFilterSentiment "bullish" s) item
   = true
   <-> AIAnalysis.getSentimentColor (Some (RecommendationsTable.sentiment item))
       = "text-green-400 bg-green-600/20")
  /\ (RecommendationsTable.keeps (RecommendationsTable.setFilterSentiment "bearish" s) item
      = true
      <-> AIAnalysis.getSentimentColor (Some (RecommendationsTable.sentiment item))
          = "text-red-400 bg-red-600/20")
  /\ (RecommendationsTable.keeps (RecommendationsTable.setFilterSentiment "neutral" s) item
      = true
      <-> AIAnalysis.getSentimentColor (Some (RecommendationsTable.sentiment item))
          = "text-yellow-400 bg-yellow-600/20").
Proof.
  unfold RecommendationsTable.keeps, RecommendationsTable.setFilterSentiment,
    AIAnalysis.getSentimentColor.
  cbn [RecommendationsTable.filterSentiment String.eqb Ascii.eqb Bool.eqb].
  generalize (Runtime.toLowerCase (RecommendationsTable.sentiment item)). intros l.
  destruct (String.eqb_spec l "bullish") as [-> | H1];
    [repeat split; cbn; congruence |].
  destruct (String.eqb_spec l "bearish") as [-> | H2];
    [repeat split; cbn; congruence |].
  destruct (String.eqb_spec l "neutral") as [-> | H3];
    repeat split; cbn; congruence.
Qed.

End Panels.
